(** * vgc/widgets/centralwidget.cpp: the four-region layout of CentralWidget

    A shallow embedding of [vgc::widgets::Splitter] and
    [vgc::widgets::CentralWidget] and the properties of their geometry.

    Conventions of the embedding.
    - A C++ [int] is a [Z].  Signed overflow is undefined behaviour in C++, so
      the embedding describes the runs in which no intermediate value leaves
      the range of [int]; [/] on [int] truncates toward zero and is [Z.quot].
    - A method [void C::m(args)] becomes a function [m args : C -> C].
    - Qt is the toolkit: [QWidget::setGeometry], [setContentsMargins],
      [setMask], [show] and [hide] store what they are handed, which is how
      the model records them.  Painting, cursor shape and the highlight
      colour do not reach any length or rectangle and are left out.

    The index wrapper of vgc/core/wraps/wrap_arrays.cpp and the point list
    of vgc/scene/scene.cpp are embedded after the widgets, each over the
    types its headers declare, taken as section variables. *)

From Stdlib Require Import ZArith Bool List Lia.
Import ListNotations.
Open Scope Z_scope.

(** ** Qt value types *)

Record QPoint := mkQPoint { px : Z; py : Z }.
Record QSize := mkQSize { sizeWidth : Z; sizeHeight : Z }.
Record QRect := mkQRect { rx : Z; ry : Z; rw : Z; rh : Z }.
Record QMargins := mkQMargins { mleft : Z; mtop : Z; mright : Z; mbottom : Z }.

(** The part of a [QWidget] that [Splitter] writes. *)
Record QWidget := mkQWidget {
  geometry : QRect;              (* setGeometry *)
  contentsMargins : QMargins;    (* setContentsMargins *)
  mask : option QRect;           (* setMask / clearMask *)
  mouseNoMask : bool;            (* Qt::WA_MouseNoMask *)
  hidden : bool                  (* hide() / show() *)
}.

Definition setGeometry (x y w h : Z) (q : QWidget) : QWidget :=
  mkQWidget (mkQRect x y w h) (contentsMargins q) (mask q) (mouseNoMask q) (hidden q).

Definition setContentsMargins (l t r b : Z) (q : QWidget) : QWidget :=
  mkQWidget (geometry q) (mkQMargins l t r b) (mask q) (mouseNoMask q) (hidden q).

Definition setMouseNoMask (b : bool) (q : QWidget) : QWidget :=
  mkQWidget (geometry q) (contentsMargins q) (mask q) b (hidden q).

(** [QWidget::contentsRect()]: the widget's own rectangle, in its own
    coordinates, inside the contents margins. *)
Definition contentsRect (q : QWidget) : QRect :=
  let g := geometry q in
  let m := contentsMargins q in
  mkQRect (mleft m) (mtop m) (rw g - mleft m - mright m) (rh g - mtop m - mbottom m).

Definition setMask (r : QRect) (q : QWidget) : QWidget :=
  mkQWidget (geometry q) (contentsMargins q) (Some r) (mouseNoMask q) (hidden q).

Definition clearMask (q : QWidget) : QWidget :=
  mkQWidget (geometry q) (contentsMargins q) None (mouseNoMask q) (hidden q).

Definition setHidden (b : bool) (q : QWidget) : QWidget :=
  mkQWidget (geometry q) (contentsMargins q) (mask q) (mouseNoMask q) b.

(** A mouse event as the handlers read it: [button()] and [buttons()] are
    only tested against [Qt::LeftButton]. *)
Record QMouseEvent := mkQMouseEvent {
  buttonIsLeft : bool;       (* e->button() == Qt::LeftButton *)
  buttonsHasLeft : bool;     (* e->buttons() & Qt::LeftButton *)
  pos : QPoint               (* e->pos() *)
}.

(** Modelled from the spec: [vgc::core::clamp], declared in
    vgc/core/algorithm.h, which is not among the sources.  The spec has
    [setLength] clamp its argument to the interval [minimumLength,
    maximumLength]; for [lo <= hi] that fixes the result.  For [hi < lo] the
    spec gives no result, and the model takes the usual C++ expression
    [(v < lo) ? lo : (hi < v) ? hi : v]. *)
Definition clamp (v lo hi : Z) : Z :=
  if v <? lo then lo else if hi <? v then hi else v.

(** ** Splitter *)

Module Splitter.

Inductive Direction := Right | Left | Top | Bottom.
Inductive Orientation := Horizontal | Vertical.

Record t := mk {
  direction_ : Direction;
  isResizable_ : bool;
  length_ : Z;
  minimumLength_ : Z;
  maximumLength_ : Z;
  centerlineStartPos_ : QPoint;
  centerlineLength_ : Z;
  grabWidth_ : Z;
  highlightWidth_ : Z;
  isHovered_ : bool;
  isPressed_ : bool;
  lengthOnPress_ : Z;
  zOnPress_ : Z;
  widget : QWidget
}.

(** Field updates, one per member the methods assign. *)

Definition with_isResizable (b : bool) (s : t) : t :=
  mk (direction_ s) b (length_ s) (minimumLength_ s) (maximumLength_ s)
     (centerlineStartPos_ s) (centerlineLength_ s) (grabWidth_ s)
     (highlightWidth_ s) (isHovered_ s) (isPressed_ s) (lengthOnPress_ s)
     (zOnPress_ s) (widget s).

Definition with_length (v : Z) (s : t) : t :=
  mk (direction_ s) (isResizable_ s) v (minimumLength_ s) (maximumLength_ s)
     (centerlineStartPos_ s) (centerlineLength_ s) (grabWidth_ s)
     (highlightWidth_ s) (isHovered_ s) (isPressed_ s) (lengthOnPress_ s)
     (zOnPress_ s) (widget s).

Definition with_minimumLength (v : Z) (s : t) : t :=
  mk (direction_ s) (isResizable_ s) (length_ s) v (maximumLength_ s)
     (centerlineStartPos_ s) (centerlineLength_ s) (grabWidth_ s)
     (highlightWidth_ s) (isHovered_ s) (isPressed_ s) (lengthOnPress_ s)
     (zOnPress_ s) (widget s).

Definition with_maximumLength (v : Z) (s : t) : t :=
  mk (direction_ s) (isResizable_ s) (length_ s) (minimumLength_ s) v
     (centerlineStartPos_ s) (centerlineLength_ s) (grabWidth_ s)
     (highlightWidth_ s) (isHovered_ s) (isPressed_ s) (lengthOnPress_ s)
     (zOnPress_ s) (widget s).

Definition with_centerline (p : QPoint) (l : Z) (s : t) : t :=
  mk (direction_ s) (isResizable_ s) (length_ s) (minimumLength_ s)
     (maximumLength_ s) p l (grabWidth_ s)
     (highlightWidth_ s) (isHovered_ s) (isPressed_ s) (lengthOnPress_ s)
     (zOnPress_ s) (widget s).

Definition with_widths (g h : Z) (s : t) : t :=
  mk (direction_ s) (isResizable_ s) (length_ s) (minimumLength_ s)
     (maximumLength_ s) (centerlineStartPos_ s) (centerlineLength_ s) g
     h (isHovered_ s) (isPressed_ s) (lengthOnPress_ s)
     (zOnPress_ s) (widget s).

Definition with_isHovered (b : bool) (s : t) : t :=
  mk (direction_ s) (isResizable_ s) (length_ s) (minimumLength_ s)
     (maximumLength_ s) (centerlineStartPos_ s) (centerlineLength_ s)
     (grabWidth_ s) (highlightWidth_ s) b (isPressed_ s) (lengthOnPress_ s)
     (zOnPress_ s) (widget s).

Definition with_press (b : bool) (l z : Z) (s : t) : t :=
  mk (direction_ s) (isResizable_ s) (length_ s) (minimumLength_ s)
     (maximumLength_ s) (centerlineStartPos_ s) (centerlineLength_ s)
     (grabWidth_ s) (highlightWidth_ s) (isHovered_ s) b l z (widget s).

Definition with_widget (q : QWidget) (s : t) : t :=
  mk (direction_ s) (isResizable_ s) (length_ s) (minimumLength_ s)
     (maximumLength_ s) (centerlineStartPos_ s) (centerlineLength_ s)
     (grabWidth_ s) (highlightWidth_ s) (isHovered_ s) (isPressed_ s)
     (lengthOnPress_ s) (zOnPress_ s) q.

(** Modelled from the spec: [Splitter::orientation()], defined in
    vgc/widgets/centralwidget.h, which is not among the sources.  Left and
    Right give the divider dragged along the horizontal axis (the branch of
    [updateGeometry_] that makes the bar [grabWidth_] wide and [l] tall),
    Top and Bottom the one dragged along the vertical axis. *)
Definition orientation (s : t) : Orientation :=
  match direction_ s with
  | Left | Right => Horizontal
  | Top | Bottom => Vertical
  end.

(** Modelled from the spec: [Splitter::z_], defined in
    vgc/widgets/centralwidget.h, which is not among the sources: the
    coordinate of a point projected on the drag axis. *)
Definition z_ (s : t) (p : QPoint) : Z :=
  match orientation s with
  | Horizontal => px p
  | Vertical => py p
  end.

Definition updateGeometry_ (s : t) : t :=
  if isResizable_ s then
    let x := px (centerlineStartPos_ s) in
    let y := py (centerlineStartPos_ s) in
    let l := centerlineLength_ s in
    let hw1 := Z.quot (highlightWidth_ s) 2 in
    let hw2 := highlightWidth_ s - hw1 in
    let gw1 := Z.quot (grabWidth_ s) 2 in
    let gw2 := grabWidth_ s - gw1 in
    let q := widget s in
    let q :=
      match orientation s with
      | Horizontal => setGeometry (x - gw1) y (grabWidth_ s) l q
      | Vertical => setGeometry x (y - gw1) l (grabWidth_ s) q
      end in
    let hasMask := highlightWidth_ s <? grabWidth_ s in
    let q := setMouseNoMask hasMask q in
    let q :=
      if hasMask then
        let q :=
          match orientation s with
          | Horizontal => setContentsMargins (gw1 - hw1) 0 (gw2 - hw2) 0 q
          | Vertical => setContentsMargins 0 (gw1 - hw1) 0 (gw2 - hw2) q
          end in
        setMask (contentsRect q) q
      else
        clearMask (setContentsMargins 0 0 0 0 q) in
    with_widget q s
  else
    with_widget (clearMask (setMouseNoMask false (setGeometry 0 0 0 0 (widget s)))) s.

(** The constructor.  [lengthOnPress_] and [zOnPress_] have no initialiser in
    the source and are only read after [mousePressEvent] wrote them; the
    model starts them at 0.  A fresh widget has no margins and no mask. *)
Definition Splitter (direction : Direction) (isResizable : bool)
    (length minimumLength maximumLength : Z) : t :=
  updateGeometry_
    (mk direction isResizable (clamp length minimumLength maximumLength)
        minimumLength maximumLength (mkQPoint 0 0) 0 10 4 false false 0 0
        (mkQWidget (mkQRect 0 0 0 0) (mkQMargins 0 0 0 0) None false false)).

Definition setResizable (isResizable : bool) (s : t) : t :=
  if Bool.eqb (isResizable_ s) isResizable then s
  else updateGeometry_ (with_isResizable isResizable s).

Definition setLength (length : Z) (s : t) : t :=
  let length := clamp length (minimumLength_ s) (maximumLength_ s) in
  if length_ s =? length then s
  else updateGeometry_ (with_length length s).

Definition setMinimumLength (min : Z) (s : t) : t :=
  let s := with_minimumLength min s in
  setLength (length_ s) s.

Definition setMaximumLength (max : Z) (s : t) : t :=
  let s := with_maximumLength max s in
  setLength (length_ s) s.

Definition setLengthRange (min max : Z) (s : t) : t :=
  setMaximumLength max (setMinimumLength min s).

Definition setGrabWidth (width : Z) (s : t) : t :=
  let g := width in
  let g := if g <? 0 then 0 else g in
  let h := highlightWidth_ s in
  let h := if g <? h then g else h in
  with_widths g h s.

Definition setHighlightWidth (width : Z) (s : t) : t :=
  let h := width in
  let h := if h <? 0 then 0 else h in
  let g := grabWidth_ s in
  let g := if g <? h then h else g in
  with_widths g h s.

Definition setGeometryFromCenterline (x y l : Z) (s : t) : t :=
  updateGeometry_ (with_centerline (mkQPoint x y) l s).

Definition show (s : t) : t := with_widget (setHidden false (widget s)) s.
Definition hide (s : t) : t := with_widget (setHidden true (widget s)) s.

(** [Splitter::event]: hover enter and leave. *)
Inductive HoverEvent := HoverEnter | HoverLeave | OtherEvent.

Definition event (e : HoverEvent) (s : t) : t :=
  match e with
  | HoverEnter => with_isHovered true s
  | HoverLeave => with_isHovered false s
  | OtherEvent => s
  end.

Definition mousePressEvent (e : QMouseEvent) (s : t) : t :=
  if buttonIsLeft e then with_press true (length_ s) (z_ s (pos e)) s
  else s.

(** The assignments of [Splitter::mouseMoveEvent] to the splitter itself
    (the body of its [if], up to the call of the parent's
    [updateGeometries_], which [CentralWidget.mouseMoveEvent] below adds). *)
Definition mouseMoveLength (e : QMouseEvent) (s : t) : t :=
  let offset := z_ s (pos e) - zOnPress_ s in
  let l :=
    match direction_ s with
    | Right | Bottom => lengthOnPress_ s + offset
    | Left | Top => lengthOnPress_ s - offset
    end in
  with_length (clamp l (minimumLength_ s) (maximumLength_ s)) s.

Definition mouseReleaseEvent (e : QMouseEvent) (s : t) : t :=
  if buttonIsLeft e then with_press false (lengthOnPress_ s) (zOnPress_ s) s
  else s.

(** The invariant the spec states for a divider's length. *)
Definition lengthInvariant (s : t) : Prop :=
  minimumLength_ s <= length_ s <= maximumLength_ s.

Definition boundsOrdered (s : t) : Prop :=
  minimumLength_ s <= maximumLength_ s.

(** The mutations of a divider's length and bounds: construction, the four
    setters, and the assignments of a drag update. *)
Inductive Mutation :=
| Construct (direction : Direction) (isResizable : bool)
            (length minimumLength maximumLength : Z)
| SetLength (length : Z)
| SetMinimumLength (min : Z)
| SetMaximumLength (max : Z)
| SetLengthRange (min max : Z)
| DragUpdate (e : QMouseEvent).

Definition mutate (m : Mutation) (s : t) : t :=
  match m with
  | Construct d r l lo hi => Splitter d r l lo hi
  | SetLength l => setLength l s
  | SetMinimumLength lo => setMinimumLength lo s
  | SetMaximumLength hi => setMaximumLength hi s
  | SetLengthRange lo hi => setLengthRange lo hi s
  | DragUpdate e => mouseMoveLength e s
  end.

(** The length a drag by [d] along the axis aims at, from the length at
    press time: dragging away from the origin grows a Right or Bottom
    region, dragging toward it grows a Left or Top region. *)
Definition dragTarget (s : t) (d : Z) : Z :=
  match direction_ s with
  | Right | Bottom => length_ s + d
  | Left | Top => length_ s - d
  end.

(** [clamp v lo hi] has nothing to do: [v] is within the bounds. *)
Definition unclamped (v lo hi : Z) : Prop := lo <= v <= hi.

(** What a drag reads of a splitter besides its length and its maximum. *)
Definition dragFrame (s : t) : Direction * Z * Z * Z :=
  (direction_ s, lengthOnPress_ s, zOnPress_ s, minimumLength_ s).

(** What two [setMaximumLength m] in a row leave of a splitter whose length
    they leave as it was: the new maximum and, when the length moved in
    between, a refreshed widget. *)
Definition settled (m : Z) (s : t) : t :=
  if length_ s =? clamp (length_ s) (minimumLength_ s) m
  then with_maximumLength m s
  else updateGeometry_ (with_maximumLength m s).

(** A call of one of the two width setters, and a sequence of them. *)
Inductive WidthCall := SetGrabWidth (width : Z) | SetHighlightWidth (width : Z).

Definition callWidth (c : WidthCall) (s : t) : t :=
  match c with
  | SetGrabWidth w => setGrabWidth w s
  | SetHighlightWidth w => setHighlightWidth w s
  end.

Definition callWidths (cs : list WidthCall) (s : t) : t :=
  fold_left (fun s c => callWidth c s) cs s.

End Splitter.

(** ** CentralWidget *)

Module CentralWidget.

Import Splitter.

(** The three satellite regions; the viewer is the fourth region and is
    always there. *)
Inductive Satellite := Toolbar | Panel | Console.

(** [splitters_] holds exactly the three splitters the constructor pushes:
    [splitters_0] (toolbar), [splitters_1] (panel), [splitters_2] (console).
    [width] and [height] are the widget's own [width()] and [height()];
    [viewerMinimumSizeHint] is what [viewer_->minimumSizeHint()] returns;
    the three visibility flags are what [isVisibleTo(this)] returns for the
    toolbar, the panel and the console; the four geometries are the
    rectangles last handed to [setGeometry] of the four child widgets. *)
Record t := mk {
  width : Z;
  height : Z;
  margin_ : Z;
  viewerMinimumSizeHint : QSize;
  toolbarVisible : bool;
  panelVisible : bool;
  consoleVisible : bool;
  toolbarGeometry : QRect;
  viewerGeometry : QRect;
  consoleGeometry : QRect;
  panelGeometry : QRect;
  splitters_0 : Splitter.t;
  splitters_1 : Splitter.t;
  splitters_2 : Splitter.t
}.

Definition with_size (w h : Z) (c : t) : t :=
  mk w h (margin_ c) (viewerMinimumSizeHint c)
     (toolbarVisible c) (panelVisible c) (consoleVisible c)
     (toolbarGeometry c) (viewerGeometry c) (consoleGeometry c) (panelGeometry c)
     (splitters_0 c) (splitters_1 c) (splitters_2 c).

Definition with_visible (r : Satellite) (b : bool) (c : t) : t :=
  mk (width c) (height c) (margin_ c) (viewerMinimumSizeHint c)
     (match r with Toolbar => b | _ => toolbarVisible c end)
     (match r with Panel => b | _ => panelVisible c end)
     (match r with Console => b | _ => consoleVisible c end)
     (toolbarGeometry c) (viewerGeometry c) (consoleGeometry c) (panelGeometry c)
     (splitters_0 c) (splitters_1 c) (splitters_2 c).

Definition isVisible (r : Satellite) (c : t) : bool :=
  match r with
  | Toolbar => toolbarVisible c
  | Panel => panelVisible c
  | Console => consoleVisible c
  end.

Definition splitter (r : Satellite) (c : t) : Splitter.t :=
  match r with
  | Toolbar => splitters_0 c
  | Panel => splitters_1 c
  | Console => splitters_2 c
  end.

Definition with_splitter (r : Satellite) (s : Splitter.t) (c : t) : t :=
  mk (width c) (height c) (margin_ c) (viewerMinimumSizeHint c)
     (toolbarVisible c) (panelVisible c) (consoleVisible c)
     (toolbarGeometry c) (viewerGeometry c) (consoleGeometry c) (panelGeometry c)
     (match r with Toolbar => s | _ => splitters_0 c end)
     (match r with Panel => s | _ => splitters_1 c end)
     (match r with Console => s | _ => splitters_2 c end).

Definition minimumSizeHint (c : t) : QSize :=
  let M := margin_ c in
  let res := mkQSize (2 * M) (2 * M) in
  let res := mkQSize (sizeWidth res + sizeWidth (viewerMinimumSizeHint c))
                     (sizeHeight res + sizeHeight (viewerMinimumSizeHint c)) in
  let res :=
    if toolbarVisible c
    then mkQSize (sizeWidth res + (M + minimumLength_ (splitters_0 c))) (sizeHeight res + 0)
    else res in
  let res :=
    if panelVisible c
    then mkQSize (sizeWidth res + (M + minimumLength_ (splitters_1 c))) (sizeHeight res + 0)
    else res in
  let res :=
    if consoleVisible c
    then mkQSize (sizeWidth res + 0) (sizeHeight res + (M + minimumLength_ (splitters_2 c)))
    else res in
  res.

(** One run of the body of the [for] loop of [updateGeometries_]: the three
    calls of [setMaximumLength], with the six positions and the viewer's
    minimum size the loop reads. *)
Definition setMaximumLengths (x1 x2 x3 x4 y1 y3 M : Z) (vMinSize : QSize)
    (ss : Splitter.t * Splitter.t * Splitter.t)
    : Splitter.t * Splitter.t * Splitter.t :=
  let '(s0, s1, s2) := ss in
  let s0 := setMaximumLength (x3 - x1 - 2 * M - sizeWidth vMinSize) s0 in
  let s1 := setMaximumLength (x4 - x2 - 2 * M - sizeWidth vMinSize) s1 in
  let s2 := setMaximumLength (y3 - y1 - 2 * M - sizeHeight vMinSize) s2 in
  (s0, s1, s2).

(** [for (int i = 0; i < n; ++i) body]. *)
Fixpoint loop {A : Type} (n : nat) (body : A -> A) (a : A) : A :=
  match n with
  | O => a
  | S n' => loop n' body (body a)
  end.

(** [updateGeometries_] with the number of runs of its loop as a parameter;
    the source has 2. *)
Definition updateGeometriesWith (passes : nat) (c : t) : t :=
  let M := margin_ c in
  let m1 := Z.quot M 2 in
  let m2 := M - m1 in
  let h := height c in
  let w := width c in
  let x1 := m1 in
  let x4 := w - m2 in
  let y1 := m1 in
  let y3 := h - m2 in
  (* Splitter between toolbar and viewer/console *)
  let s0 := splitters_0 c in
  let x2 := if toolbarVisible c then x1 + (M + length_ s0) else x1 in
  let s0 :=
    if toolbarVisible c
    then show (setGeometryFromCenterline x2 (y1 + m2) (y3 - y1 - M) s0)
    else hide s0 in
  (* Splitter between viewer/console and panels *)
  let s1 := splitters_1 c in
  let x3 := if panelVisible c then x4 - (M + length_ s1) else x4 in
  let s1 :=
    if panelVisible c
    then show (setGeometryFromCenterline x3 (y1 + m2) (y3 - y1 - M) s1)
    else hide s1 in
  (* Splitter between viewer and console *)
  let s2 := splitters_2 c in
  let y2 := if consoleVisible c then y3 - (M + length_ s2) else y3 in
  let s2 :=
    if consoleVisible c
    then show (setGeometryFromCenterline (x2 + m2) y2 (x3 - x2 - M) s2)
    else hide s2 in
  (* Set maximum sizes *)
  let vMinSize := viewerMinimumSizeHint c in
  let '(s0, s1, s2) :=
    loop passes (setMaximumLengths x1 x2 x3 x4 y1 y3 M vMinSize) (s0, s1, s2) in
  (* Set geometry of actual useful widgets *)
  mk w h M vMinSize (toolbarVisible c) (panelVisible c) (consoleVisible c)
     (mkQRect (x1 + m2) (y1 + m2) (x2 - x1 - M) (y3 - y1 - M))
     (mkQRect (x2 + m2) (y1 + m2) (x3 - x2 - M) (y2 - y1 - M))
     (mkQRect (x2 + m2) (y2 + m2) (x3 - x2 - M) (y3 - y2 - M))
     (mkQRect (x3 + m2) (y1 + m2) (x4 - x3 - M) (y3 - y1 - M))
     s0 s1 s2.

Definition updateGeometries_ : t -> t := updateGeometriesWith 2.

(** The constructor: margin 0, the three splitters, then
    [updateGeometries_].  Its inputs are what the toolkit and the header
    supply: the widget's size at that time, the viewer's minimum size hint,
    the visibility of the three satellites, and [defaultMaximumLength], the
    default argument of [Splitter]'s last parameter, which is declared in
    vgc/widgets/centralwidget.h (not among the sources). *)
Definition CentralWidget (w h : Z) (vMinSize : QSize)
    (toolbarVis panelVis consoleVis : bool) (defaultMaximumLength : Z) : t :=
  updateGeometries_
    (mk w h 0 vMinSize toolbarVis panelVis consoleVis
        (mkQRect 0 0 0 0) (mkQRect 0 0 0 0) (mkQRect 0 0 0 0) (mkQRect 0 0 0 0)
        (Splitter Right false 68 68 defaultMaximumLength)
        (Splitter Left true 200 200 defaultMaximumLength)
        (Splitter Top true 200 50 defaultMaximumLength)).

(** [resizeEvent], after the toolkit gave the widget its new size. *)
Definition resizeEvent (w h : Z) (c : t) : t :=
  updateGeometries_ (with_size w h c).

(** Modelled from the spec: the visibility setter of a satellite region.
    The constructor connects the [toggled(bool)] signal of a
    [ToggleViewAction] (vgc/widgets/toggleviewaction.h, not among the
    sources) to [updateGeometries_]; following the spec, a toggle sets the
    region's visibility and then triggers the recompute. *)
Definition toggled (r : Satellite) (visible : bool) (c : t) : t :=
  updateGeometries_ (with_visible r visible c).

(** Mouse events delivered to the splitter of satellite [r]. *)
Definition mousePressEvent (r : Satellite) (e : QMouseEvent) (c : t) : t :=
  with_splitter r (Splitter.mousePressEvent e (splitter r c)) c.

(** [Splitter::mouseMoveEvent]: with the left button down, the splitter
    takes its new length and calls [parent_->updateGeometries_()]. *)
Definition mouseMoveEvent (r : Satellite) (e : QMouseEvent) (c : t) : t :=
  if buttonsHasLeft e
  then updateGeometries_ (with_splitter r (mouseMoveLength e (splitter r c)) c)
  else c.

Definition mouseReleaseEvent (r : Satellite) (e : QMouseEvent) (c : t) : t :=
  with_splitter r (Splitter.mouseReleaseEvent e (splitter r c)) c.

(** *** Observations used by the statements *)

Definition nonNegative (r : QRect) : Prop := 0 <= rw r /\ 0 <= rh r.

Definition regionsNonNegative (c : t) : Prop :=
  nonNegative (viewerGeometry c) /\ nonNegative (toolbarGeometry c) /\
  nonNegative (panelGeometry c) /\ nonNegative (consoleGeometry c).

(** The container is at least as large as the minimum-size hint. *)
Definition atLeastMinimumSizeHint (c : t) : Prop :=
  sizeWidth (minimumSizeHint c) <= width c /\
  sizeHeight (minimumSizeHint c) <= height c.

Definition viewerAtLeastMinimum (c : t) : Prop :=
  sizeWidth (viewerMinimumSizeHint c) <= rw (viewerGeometry c) /\
  sizeHeight (viewerMinimumSizeHint c) <= rh (viewerGeometry c).

(** The rectangles of the four regions and of the three dividers. *)
Definition rectangles (c : t) : list QRect :=
  [ viewerGeometry c; toolbarGeometry c; panelGeometry c; consoleGeometry c;
    geometry (widget (splitters_0 c)); geometry (widget (splitters_1 c));
    geometry (widget (splitters_2 c)) ].

Definition lengths (c : t) : Z * Z * Z :=
  (length_ (splitters_0 c), length_ (splitters_1 c), length_ (splitters_2 c)).

(** The local variables of [updateGeometries_], as functions of the state it
    is called in. *)
Definition m1 (c : t) : Z := Z.quot (margin_ c) 2.
Definition m2 (c : t) : Z := margin_ c - m1 c.
Definition x1 (c : t) : Z := m1 c.
Definition x4 (c : t) : Z := width c - m2 c.
Definition y1 (c : t) : Z := m1 c.
Definition y3 (c : t) : Z := height c - m2 c.
Definition x2 (c : t) : Z :=
  if toolbarVisible c then x1 c + (margin_ c + length_ (splitters_0 c)) else x1 c.
Definition x3 (c : t) : Z :=
  if panelVisible c then x4 c - (margin_ c + length_ (splitters_1 c)) else x4 c.
Definition y2 (c : t) : Z :=
  if consoleVisible c then y3 c - (margin_ c + length_ (splitters_2 c)) else y3 c.

(** The [if]/[else] that places or hides a splitter. *)
Definition place (visible : bool) (x y l : Z) (s : Splitter.t) : Splitter.t :=
  if visible then show (setGeometryFromCenterline x y l s) else hide s.

(** The splitter of [r] as [updateGeometries_] leaves it before its loop. *)
Definition placed (r : Satellite) (c : t) : Splitter.t :=
  match r with
  | Toolbar =>
      place (toolbarVisible c) (x2 c) (y1 c + m2 c) (y3 c - y1 c - margin_ c)
            (splitters_0 c)
  | Panel =>
      place (panelVisible c) (x3 c) (y1 c + m2 c) (y3 c - y1 c - margin_ c)
            (splitters_1 c)
  | Console =>
      place (consoleVisible c) (x2 c + m2 c) (y2 c) (x3 c - x2 c - margin_ c)
            (splitters_2 c)
  end.

(** The value [updateGeometries_] passes to [setMaximumLength] of the
    splitter of [r]. *)
Definition assignedMaximum (r : Satellite) (c : t) : Z :=
  match r with
  | Toolbar => x3 c - x1 c - 2 * margin_ c - sizeWidth (viewerMinimumSizeHint c)
  | Panel => x4 c - x2 c - 2 * margin_ c - sizeWidth (viewerMinimumSizeHint c)
  | Console => y3 c - y1 c - 2 * margin_ c - sizeHeight (viewerMinimumSizeHint c)
  end.

(** The length a move event leaves a splitter aiming at [v]: [v] clamped by
    [mouseMoveEvent] to the bounds [lo], [hi] in force, then re-clamped by
    the two [setMaximumLength m] of [updateGeometries_]. *)
Definition lengthAfterMove (v lo hi m : Z) : Z :=
  clamp (clamp (clamp v lo hi) lo m) lo m.

(** The extent [updateGeometries_] gives a satellite across its divider (the
    width of the toolbar and of the panel, the height of the console), and
    what the satellite takes from the viewer on that axis. *)
Definition satelliteExtent (r : Satellite) (c : t) : Z :=
  if isVisible r c then length_ (splitter r c) else - margin_ c.

Definition occupied (r : Satellite) (c : t) : Z :=
  if isVisible r c then margin_ c + length_ (splitter r c) else 0.

End CentralWidget.

(** ** Concrete states *)

Module Scenario.

(** [std::numeric_limits<int>::max()], taken as the default maximum length. *)
Definition std_int_max : Z := 2147483647.

(** A window built 1000 by 800 around a viewer whose minimum size hint is
    100 by 100, the three satellites visible. *)
Definition initial : CentralWidget.t :=
  CentralWidget.CentralWidget 1000 800 (mkQSize 100 100) true true true std_int_max.

(** The same window at the moment [resizeEvent] runs after it was made 150
    high, which is the height of its minimum-size hint (100 + 50). *)
Definition shrunk : CentralWidget.t := CentralWidget.with_size 1000 150 initial.

(** ... after it was made 150 wide, less than its minimum-size hint. *)
Definition narrow : CentralWidget.t := CentralWidget.with_size 150 800 initial.

(** ... after it was made 300 wide. *)
Definition tight : CentralWidget.t := CentralWidget.with_size 300 800 initial.

(** The window with the toolbar hidden by its owner. *)
Definition noToolbar : CentralWidget.t :=
  CentralWidget.with_visible CentralWidget.Toolbar false initial.

(** The window after [resizeEvent] ran for the height 150. *)
Definition afterShrink : CentralWidget.t := CentralWidget.resizeEvent 1000 150 initial.

(** The panel splitter as the constructor builds it. *)
Definition panelSplitter : Splitter.t :=
  Splitter.Splitter Splitter.Left true 200 200 std_int_max.

(** A press on the panel divider at x = 800, a move 100 to the left with the
    button held, and a move back to x = 800. *)
Definition pressAt800 : QMouseEvent := mkQMouseEvent true true (mkQPoint 800 100).
Definition moveTo700 : QMouseEvent := mkQMouseEvent false true (mkQPoint 700 100).
Definition moveTo800 : QMouseEvent := mkQMouseEvent false true (mkQPoint 800 100).

End Scenario.

(** ** vgc/core/wraps/wrap_arrays.cpp: Python indices *)

Module ArrayWrap.

(** The format arguments of the two [IndexError]s [pyWrapped] throws. *)
Inductive IndexError :=
| EmptyArray (i : Z)
| OutOfRange (i lo hi len : Z).

Section Wrapped.

(** [template<typename This>]: the array type and the members the wrappers
    call, which the array headers declare (they are not among the sources).
    [setUnchecked a j v] stands for the assignment [a.getUnchecked(j) = v];
    [pop] returns the removed value and leaves the shortened array. *)
Variables This T : Type.
Variable isEmpty : This -> bool.
Variable length : This -> Z.
Variable getUnchecked : This -> Z -> T.
Variable setUnchecked : This -> Z -> T -> This.
Variable pop : This -> Z -> T * This.

Definition pyWrapped (a : This) (i : Z) : IndexError + Z :=
  if isEmpty a then
    inl (EmptyArray i)
  else if (i <? - length a) || (length a - 1 <? i) then
    inl (OutOfRange i (- length a) (length a - 1) (length a))
  else
    inr (if i <? 0 then i + length a else i).

Definition __getitem__ (a : This) (i : Z) : IndexError + T :=
  match pyWrapped a i with
  | inl e => inl e
  | inr j => inr (getUnchecked a j)
  end.

Definition __setitem__ (a : This) (i : Z) (value : T) : IndexError + This :=
  match pyWrapped a i with
  | inl e => inl e
  | inr j => inr (setUnchecked a j value)
  end.

(** The overload [pop(i)]. *)
Definition pop_at (a : This) (i : Z) : IndexError + T * This :=
  match pyWrapped a i with
  | inl e => inl e
  | inr j => inr (pop a j)
  end.

End Wrapped.

(** An array of integers as a list, to run the wrappers on. *)
Definition listIsEmpty (a : list Z) : bool :=
  match a with [] => true | _ => false end.
Definition listLength (a : list Z) : Z := Z.of_nat (List.length a).
Definition listGet (a : list Z) (j : Z) : Z := nth (Z.to_nat j) a 0.

End ArrayWrap.

(** ** vgc/scene/scene.cpp *)

Module Scene.

Section Points.

(** [geometry::Point] and its default constructor, which vgc/geometry
    declares (not among the sources). *)
Variable Point : Type.
Variable defaultPoint : Point.

(** [points_] and the number of times [changed()] was emitted. *)
Record t := mk { points_ : list Point; changed : nat }.

Definition Scene : t := mk [] 0.

Definition addPoint (point : Point) (s : t) : t :=
  mk (points_ s ++ [point]) (S (changed s)).

(** The overload without argument. *)
Definition addDefaultPoint (s : t) : t := addPoint defaultPoint s.

Definition setPoints (points : list Point) (s : t) : t :=
  mk points (S (changed s)).

Inductive Call :=
| AddPoint (point : Point)
| AddDefaultPoint
| SetPoints (points : list Point).

Definition call (c : Call) (s : t) : t :=
  match c with
  | AddPoint p => addPoint p s
  | AddDefaultPoint => addDefaultPoint s
  | SetPoints ps => setPoints ps s
  end.

Definition calls (cs : list Call) (s : t) : t :=
  fold_left (fun s c => call c s) cs s.

(** The points a call adds at the end, for a call that is not [setPoints]. *)
Definition added (c : Call) : list Point :=
  match c with
  | AddPoint p => [p]
  | AddDefaultPoint => [defaultPoint]
  | SetPoints _ => []
  end.

Definition isAdd (c : Call) : bool :=
  match c with SetPoints _ => false | _ => true end.

End Points.

End Scene.

(** ** Observations on a splitter's rectangle and on its input events *)

Module SplitterView.

Import Splitter.

(** A rectangle seen from a splitter: [across] is the axis the splitter is
    dragged along (its thickness), [along] the axis of its centerline. *)
Definition acrossStart (o : Orientation) (r : QRect) : Z :=
  match o with Horizontal => rx r | Vertical => ry r end.
Definition acrossExtent (o : Orientation) (r : QRect) : Z :=
  match o with Horizontal => rw r | Vertical => rh r end.
Definition alongStart (o : Orientation) (r : QRect) : Z :=
  match o with Horizontal => ry r | Vertical => rx r end.
Definition alongExtent (o : Orientation) (r : QRect) : Z :=
  match o with Horizontal => rh r | Vertical => rw r end.

(** The events that reach a splitter apart from a mouse move: [event],
    [mousePressEvent] and [mouseReleaseEvent]. *)
Inductive Input :=
| Hover (e : HoverEvent)
| Press (e : QMouseEvent)
| Release (e : QMouseEvent).

Definition input (i : Input) (s : Splitter.t) : Splitter.t :=
  match i with
  | Hover e => event e s
  | Press e => Splitter.mousePressEvent e s
  | Release e => Splitter.mouseReleaseEvent e s
  end.

Definition inputs (ins : list Input) (s : Splitter.t) : Splitter.t :=
  fold_left (fun s i => input i s) ins s.

(** What the layout reads of a splitter: everything but the hover and press
    state. *)
Definition layoutState (s : Splitter.t)
    : Direction * bool * Z * Z * Z * QPoint * Z * Z * Z * QWidget :=
  (direction_ s, isResizable_ s, length_ s, minimumLength_ s,
   maximumLength_ s, centerlineStartPos_ s, centerlineLength_ s,
   grabWidth_ s, highlightWidth_ s, widget s).

End SplitterView.

(** ** Properties of [clamp] and of the splitter's setters *)

Section ClampFacts.

Variables v lo hi : Z.

Lemma clamp_within : lo <= hi -> lo <= clamp v lo hi <= hi.
Proof.
  unfold clamp.
  destruct (Z.ltb_spec v lo); [lia|].
  destruct (Z.ltb_spec hi v); lia.
Qed.

Lemma clamp_fixed : lo <= v <= hi -> clamp v lo hi = v.
Proof.
  unfold clamp.
  destruct (Z.ltb_spec v lo); [lia|].
  destruct (Z.ltb_spec hi v); lia.
Qed.

(** On an empty range the modelled [clamp] never returns its argument's
    clamp twice: a second application undoes the first. *)
Lemma clamp_twice_empty : hi < lo -> clamp (clamp v lo hi) lo hi <> clamp v lo hi.
Proof.
  unfold clamp.
  destruct (Z.ltb_spec v lo).
  - destruct (Z.ltb_spec lo lo); [lia|].
    destruct (Z.ltb_spec hi lo); lia.
  - destruct (Z.ltb_spec hi v); [|lia].
    destruct (Z.ltb_spec hi lo); lia.
Qed.

End ClampFacts.

Lemma clamp_twice_ordered v lo hi :
  lo <= hi -> clamp (clamp v lo hi) lo hi = clamp v lo hi.
Proof.
  intros H. apply clamp_fixed. now apply clamp_within.
Qed.

Module SplitterFacts.

Import Splitter.

(** [updateGeometry_] writes the widget and nothing else. *)
Lemma updateGeometry_widget_only s :
  exists q, updateGeometry_ s = with_widget q s.
Proof.
  unfold updateGeometry_. destruct (isResizable_ s); eexists; reflexivity.
Qed.

Ltac forget_widget s :=
  let q := fresh "q" in
  let E := fresh "E" in
  destruct (updateGeometry_widget_only s) as [q E]; rewrite E; clear E.

Lemma setLength_length v s :
  length_ (setLength v s) = clamp v (minimumLength_ s) (maximumLength_ s).
Proof.
  unfold setLength.
  destruct (Z.eqb_spec (length_ s) (clamp v (minimumLength_ s) (maximumLength_ s)))
    as [E|E]; [exact E|].
  forget_widget (with_length (clamp v (minimumLength_ s) (maximumLength_ s)) s).
  reflexivity.
Qed.

Lemma setLength_bounds v s :
  minimumLength_ (setLength v s) = minimumLength_ s /\
  maximumLength_ (setLength v s) = maximumLength_ s.
Proof.
  unfold setLength.
  destruct (length_ s =? clamp v (minimumLength_ s) (maximumLength_ s)); [tauto|].
  forget_widget (with_length (clamp v (minimumLength_ s) (maximumLength_ s)) s).
  split; reflexivity.
Qed.

Lemma setMaximumLength_fields m s :
  length_ (setMaximumLength m s) = clamp (length_ s) (minimumLength_ s) m /\
  minimumLength_ (setMaximumLength m s) = minimumLength_ s /\
  maximumLength_ (setMaximumLength m s) = m.
Proof.
  unfold setMaximumLength.
  rewrite setLength_length.
  destruct (setLength_bounds (length_ (with_maximumLength m s)) (with_maximumLength m s))
    as [-> ->].
  repeat split.
Qed.

Lemma setMinimumLength_fields m s :
  length_ (setMinimumLength m s) = clamp (length_ s) m (maximumLength_ s) /\
  minimumLength_ (setMinimumLength m s) = m /\
  maximumLength_ (setMinimumLength m s) = maximumLength_ s.
Proof.
  unfold setMinimumLength.
  rewrite setLength_length.
  destruct (setLength_bounds (length_ (with_minimumLength m s)) (with_minimumLength m s))
    as [-> ->].
  repeat split.
Qed.

(** A maximum below the minimum leaves no admissible length. *)
Lemma setMaximumLength_below_minimum m s :
  m < minimumLength_ s -> ~ lengthInvariant (setMaximumLength m s).
Proof.
  unfold lengthInvariant.
  destruct (setMaximumLength_fields m s) as (_ & -> & ->). lia.
Qed.

Lemma with_maximumLength_same m s :
  maximumLength_ s = m -> with_maximumLength m s = s.
Proof. destruct s; cbn; intros ->; reflexivity. Qed.

Lemma setLength_same s :
  clamp (length_ s) (minimumLength_ s) (maximumLength_ s) = length_ s ->
  setLength (length_ s) s = s.
Proof.
  intros E. unfold setLength. rewrite E, Z.eqb_refl. reflexivity.
Qed.

(** With the minimum at most the new maximum, a second [setMaximumLength]
    with the same argument changes nothing. *)
Lemma setMaximumLength_twice m s :
  minimumLength_ s <= m ->
  setMaximumLength m (setMaximumLength m s) = setMaximumLength m s.
Proof.
  intros H.
  destruct (setMaximumLength_fields m s) as (El & Emin & Emax).
  unfold setMaximumLength at 1.
  rewrite (with_maximumLength_same m _ Emax).
  apply setLength_same.
  rewrite El, Emin, Emax. now apply clamp_twice_ordered.
Qed.

Lemma construct_fields d r l lo hi :
  length_ (Splitter d r l lo hi) = clamp l lo hi /\
  minimumLength_ (Splitter d r l lo hi) = lo /\
  maximumLength_ (Splitter d r l lo hi) = hi /\
  grabWidth_ (Splitter d r l lo hi) = 10 /\
  highlightWidth_ (Splitter d r l lo hi) = 4.
Proof.
  unfold Splitter.
  match goal with |- context [updateGeometry_ ?s] => forget_widget s end.
  repeat split.
Qed.

Lemma mutate_length_clamped m s :
  exists v, length_ (mutate m s) =
            clamp v (minimumLength_ (mutate m s)) (maximumLength_ (mutate m s)).
Proof.
  destruct m as [d r l lo hi|l|lo|hi|lo hi|e]; cbn [mutate].
  - exists l. destruct (construct_fields d r l lo hi) as (-> & -> & -> & _).
    reflexivity.
  - exists l. rewrite setLength_length.
    destruct (setLength_bounds l s) as [-> ->]. reflexivity.
  - exists (length_ s).
    destruct (setMinimumLength_fields lo s) as (-> & -> & ->). reflexivity.
  - exists (length_ s).
    destruct (setMaximumLength_fields hi s) as (-> & -> & ->). reflexivity.
  - exists (length_ (setMinimumLength lo s)). unfold setLengthRange.
    destruct (setMaximumLength_fields hi (setMinimumLength lo s)) as (-> & -> & ->).
    reflexivity.
  - eexists. unfold mouseMoveLength. cbn. reflexivity.
Qed.

Lemma width_invariant_step c s :
  0 <= highlightWidth_ s <= grabWidth_ s ->
  0 <= highlightWidth_ (callWidth c s) <= grabWidth_ (callWidth c s).
Proof.
  intros H. destruct c as [w|w]; cbn.
  - destruct (Z.ltb_spec w 0).
    + destruct (Z.ltb_spec 0 (highlightWidth_ s)); lia.
    + destruct (Z.ltb_spec w (highlightWidth_ s)); lia.
  - destruct (Z.ltb_spec w 0).
    + destruct (Z.ltb_spec (grabWidth_ s) 0); lia.
    + destruct (Z.ltb_spec (grabWidth_ s) w); lia.
Qed.

Lemma width_invariant_calls cs : forall s,
  0 <= highlightWidth_ s <= grabWidth_ s ->
  0 <= highlightWidth_ (callWidths cs s) <= grabWidth_ (callWidths cs s).
Proof.
  unfold callWidths.
  induction cs as [|c cs IH]; intros s H; cbn [fold_left].
  - exact H.
  - apply IH. now apply width_invariant_step.
Qed.

End SplitterFacts.

(** ** The shape of [updateGeometries_] *)

Module CentralWidgetFacts.

Import Splitter CentralWidget.

Lemma loop_setMaximumLengths n a1 a2 a3 a4 b1 b3 M v : forall s0 s1 s2,
  loop n (setMaximumLengths a1 a2 a3 a4 b1 b3 M v) (s0, s1, s2) =
  (loop n (setMaximumLength (a3 - a1 - 2 * M - sizeWidth v)) s0,
   loop n (setMaximumLength (a4 - a2 - 2 * M - sizeWidth v)) s1,
   loop n (setMaximumLength (b3 - b1 - 2 * M - sizeHeight v)) s2).
Proof.
  induction n as [|n IH]; intros s0 s1 s2; cbn [loop].
  - reflexivity.
  - cbn [setMaximumLengths]. apply IH.
Qed.

(** [updateGeometries_] in one piece: every field of the state it returns. *)
Lemma updateGeometriesWith_eq n c :
  updateGeometriesWith n c =
  mk (width c) (height c) (margin_ c) (viewerMinimumSizeHint c)
     (toolbarVisible c) (panelVisible c) (consoleVisible c)
     (mkQRect (x1 c + m2 c) (y1 c + m2 c) (x2 c - x1 c - margin_ c)
              (y3 c - y1 c - margin_ c))
     (mkQRect (x2 c + m2 c) (y1 c + m2 c) (x3 c - x2 c - margin_ c)
              (y2 c - y1 c - margin_ c))
     (mkQRect (x2 c + m2 c) (y2 c + m2 c) (x3 c - x2 c - margin_ c)
              (y3 c - y2 c - margin_ c))
     (mkQRect (x3 c + m2 c) (y1 c + m2 c) (x4 c - x3 c - margin_ c)
              (y3 c - y1 c - margin_ c))
     (loop n (setMaximumLength (assignedMaximum Toolbar c)) (placed Toolbar c))
     (loop n (setMaximumLength (assignedMaximum Panel c)) (placed Panel c))
     (loop n (setMaximumLength (assignedMaximum Console c)) (placed Console c)).
Proof.
  unfold updateGeometriesWith.
  rewrite loop_setMaximumLengths.
  reflexivity.
Qed.

Lemma splitter_updateGeometriesWith n r c :
  splitter r (updateGeometriesWith n c) =
  loop n (setMaximumLength (assignedMaximum r c)) (placed r c).
Proof.
  rewrite updateGeometriesWith_eq. destruct r; reflexivity.
Qed.

Lemma place_fields vis x y l s :
  length_ (place vis x y l s) = length_ s /\
  minimumLength_ (place vis x y l s) = minimumLength_ s /\
  maximumLength_ (place vis x y l s) = maximumLength_ s.
Proof.
  unfold place, setGeometryFromCenterline.
  destruct vis; [|repeat split].
  match goal with |- context [updateGeometry_ ?s] =>
    SplitterFacts.forget_widget s end.
  repeat split.
Qed.

Lemma placed_fields r c :
  length_ (placed r c) = length_ (splitter r c) /\
  minimumLength_ (placed r c) = minimumLength_ (splitter r c) /\
  maximumLength_ (placed r c) = maximumLength_ (splitter r c).
Proof.
  destruct r; apply place_fields.
Qed.

(** Reduces the projections of a state given by its constructor. *)
Ltac project :=
  cbn [width height margin_ viewerMinimumSizeHint toolbarVisible panelVisible
       consoleVisible toolbarGeometry viewerGeometry consoleGeometry
       panelGeometry splitters_0 splitters_1 splitters_2 splitter isVisible
       rx ry rw rh sizeWidth sizeHeight] in *.

(** Unfolds the positions down to the inputs and the half margin [m1]. *)
Ltac positions :=
  unfold assignedMaximum, satelliteExtent, occupied, isVisible, splitter,
    x2, x3, y2, x1, x4, y1, y3, m2 in *.

(** The extents of the four rectangles in terms of the inputs. *)
Lemma region_extents n c :
  let c' := updateGeometriesWith n c in
  rw (toolbarGeometry c') = satelliteExtent Toolbar c /\
  rh (toolbarGeometry c') = height c - 2 * margin_ c /\
  rw (viewerGeometry c') =
    width c - 2 * margin_ c - occupied Toolbar c - occupied Panel c /\
  rh (viewerGeometry c') = height c - 2 * margin_ c - occupied Console c /\
  rw (consoleGeometry c') = rw (viewerGeometry c') /\
  rh (consoleGeometry c') = satelliteExtent Console c /\
  rw (panelGeometry c') = satelliteExtent Panel c /\
  rh (panelGeometry c') = height c - 2 * margin_ c.
Proof.
  cbv zeta. rewrite updateGeometriesWith_eq. project.
  positions.
  destruct (toolbarVisible c), (panelVisible c), (consoleVisible c);
    repeat split; lia.
Qed.

(** When no divider is longer than the maximum the call assigns to it, a
    container at least as large as the minimum-size hint leaves the viewer
    its minimum size. *)
Lemma viewer_minimum_when_lengths_settled c :
  atLeastMinimumSizeHint c ->
  (forall r, isVisible r c = true ->
             length_ (splitter r c) <= assignedMaximum r c) ->
  viewerAtLeastMinimum (updateGeometries_ c).
Proof.
  intros [Hw Hh] Hlen.
  unfold viewerAtLeastMinimum, updateGeometries_.
  destruct (region_extents 2 c) as (_ & _ & -> & -> & _).
  rewrite updateGeometriesWith_eq.
  pose proof (Hlen Toolbar) as Ht.
  pose proof (Hlen Panel) as Hp.
  pose proof (Hlen Console) as Hc.
  unfold minimumSizeHint in Hw, Hh.
  positions. project.
  destruct (toolbarVisible c), (panelVisible c), (consoleVisible c);
    project; split;
    try specialize (Ht eq_refl); try specialize (Hp eq_refl);
    try specialize (Hc eq_refl); lia.
Qed.

End CentralWidgetFacts.

(** ** Two recomputes in a row *)

Module ResettleFacts.

Import Splitter CentralWidget.

(** Evaluates compositions of the field updates and of [updateGeometry_] on
    a splitter given by its fields. *)
Ltac evaluate :=
  cbv [updateGeometry_ orientation place setGeometryFromCenterline show hide
       with_length with_maximumLength with_centerline with_widget
       setGeometry setContentsMargins setMouseNoMask contentsRect setMask
       clearMask setHidden
       direction_ isResizable_ length_ minimumLength_ maximumLength_
       centerlineStartPos_ centerlineLength_ grabWidth_ highlightWidth_
       isHovered_ isPressed_ lengthOnPress_ zOnPress_ widget
       geometry contentsMargins mask mouseNoMask hidden
       px py rx ry rw rh mleft mtop mright mbottom].

Ltac by_fields s :=
  destruct s as [[] [] ? ? ? ? ? ? ? ? ? ? ? [? ? ? ? ?]];
  evaluate;
  repeat match goal with |- context [?a <? ?b] => destruct (a <? b) end;
  reflexivity.

Lemma refresh_after_relength m a s :
  updateGeometry_
    (with_length (length_ s)
       (with_maximumLength m
          (updateGeometry_ (with_length a (with_maximumLength m s)))))
  = updateGeometry_ (with_maximumLength m s).
Proof. by_fields s. Qed.

Lemma with_maximumLength_twice m s :
  with_maximumLength m (with_maximumLength m s) = with_maximumLength m s.
Proof. by_fields s. Qed.

Lemma refresh_placed m x y l s :
  updateGeometry_ (with_maximumLength m (place true x y l s))
  = with_maximumLength m (place true x y l s).
Proof. by_fields s. Qed.

Lemma place_placed m x y l s :
  place true x y l (with_maximumLength m (place true x y l s))
  = with_maximumLength m (place true x y l s).
Proof. by_fields s. Qed.

Lemma hide_hidden m s :
  hide (with_maximumLength m (hide s)) = with_maximumLength m (hide s).
Proof. by_fields s. Qed.

Lemma hide_refreshed m s :
  hide (updateGeometry_ (with_maximumLength m (hide s)))
  = updateGeometry_ (with_maximumLength m (hide s)).
Proof. by_fields s. Qed.

Lemma refresh_refreshed m s :
  updateGeometry_ (with_maximumLength m (updateGeometry_ (with_maximumLength m s)))
  = updateGeometry_ (with_maximumLength m s).
Proof. by_fields s. Qed.

Lemma refresh_fields s :
  length_ (updateGeometry_ s) = length_ s /\
  minimumLength_ (updateGeometry_ s) = minimumLength_ s /\
  maximumLength_ (updateGeometry_ s) = maximumLength_ s.
Proof. SplitterFacts.forget_widget s. repeat split. Qed.

Lemma settle_cases m s :
  length_ (setMaximumLength m (setMaximumLength m s)) = length_ s ->
  setMaximumLength m (setMaximumLength m s) = settled m s.
Proof.
  intros H. unfold settled.
  destruct (SplitterFacts.setMaximumLength_fields m s) as (L1 & Min1 & Max1).
  destruct (SplitterFacts.setMaximumLength_fields m (setMaximumLength m s))
    as (L2 & _ & _).
  rewrite L2, Min1, L1 in H.
  destruct (Z.eqb_spec (length_ s) (clamp (length_ s) (minimumLength_ s) m)) as [E|E].
  - assert (E1 : setMaximumLength m s = with_maximumLength m s).
    { unfold setMaximumLength, setLength.
      cbn [length_ minimumLength_ maximumLength_ with_maximumLength].
      rewrite <- E, Z.eqb_refl. reflexivity. }
    rewrite E1. unfold setMaximumLength, setLength.
    cbn [length_ minimumLength_ maximumLength_ with_maximumLength].
    rewrite <- E, Z.eqb_refl. reflexivity.
  - assert (E1 : setMaximumLength m s =
                 updateGeometry_ (with_length (clamp (length_ s) (minimumLength_ s) m)
                                              (with_maximumLength m s))).
    { unfold setMaximumLength, setLength.
      cbn [length_ minimumLength_ maximumLength_ with_maximumLength].
      destruct (Z.eqb_spec (length_ s) (clamp (length_ s) (minimumLength_ s) m));
        [contradiction|reflexivity]. }
    rewrite E1. set (a := clamp (length_ s) (minimumLength_ s) m) in *.
    unfold setMaximumLength at 1. unfold setLength.
    set (p := with_maximumLength m (updateGeometry_ (with_length a (with_maximumLength m s)))).
    assert (Lp : length_ p = a).
    { unfold p. cbn [length_ with_maximumLength].
      destruct (refresh_fields (with_length a (with_maximumLength m s))) as (-> & _).
      reflexivity. }
    assert (Mp : minimumLength_ p = minimumLength_ s).
    { unfold p. cbn [minimumLength_ with_maximumLength].
      destruct (refresh_fields (with_length a (with_maximumLength m s))) as (_ & -> & _).
      reflexivity. }
    assert (Xp : maximumLength_ p = m) by reflexivity.
    rewrite Lp, Mp, Xp, H.
    destruct (Z.eqb_spec a (length_ s)) as [E'|_]; [congruence|].
    unfold p. apply refresh_after_relength.
Qed.

Lemma settled_fields m s :
  length_ (settled m s) = length_ s /\
  minimumLength_ (settled m s) = minimumLength_ s.
Proof.
  unfold settled.
  destruct (length_ s =? clamp (length_ s) (minimumLength_ s) m).
  - split; reflexivity.
  - destruct (refresh_fields (with_maximumLength m s)) as (-> & -> & _).
    split; reflexivity.
Qed.

Lemma resettle vis x y l m s :
  length_ (setMaximumLength m (setMaximumLength m (place vis x y l s))) = length_ s ->
  setMaximumLength m (setMaximumLength m (place vis x y l
     (setMaximumLength m (setMaximumLength m (place vis x y l s)))))
  = setMaximumLength m (setMaximumLength m (place vis x y l s)).
Proof.
  intros H.
  destruct (CentralWidgetFacts.place_fields vis x y l s) as (Pl & Pmin & _).
  assert (H1 : length_ (setMaximumLength m (setMaximumLength m (place vis x y l s)))
               = length_ (place vis x y l s)) by congruence.
  rewrite (settle_cases m _ H1).
  set (p := place vis x y l s) in *.
  assert (P : place vis x y l (settled m p) = settled m p).
  { unfold settled, p.
    destruct (_ =? _); destruct vis.
    - apply place_placed.
    - apply hide_hidden.
    - rewrite refresh_placed. apply place_placed.
    - apply hide_refreshed. }
  rewrite P.
  destruct (settled_fields m p) as (Sl & Smin).
  rewrite settle_cases.
  - unfold settled at 1. rewrite Sl, Smin. unfold settled.
    destruct (_ =? _).
    + apply with_maximumLength_twice.
    + apply refresh_refreshed.
  - destruct (SplitterFacts.setMaximumLength_fields m (settled m p)) as (L1 & Min1 & _).
    destruct (SplitterFacts.setMaximumLength_fields m (setMaximumLength m (settled m p)))
      as (L2 & _ & _).
    rewrite L2, Min1, L1, Smin, Sl.
    destruct (SplitterFacts.setMaximumLength_fields m p) as (L1' & Min1' & _).
    destruct (SplitterFacts.setMaximumLength_fields m (setMaximumLength m p))
      as (L2' & _ & _).
    rewrite L2', Min1', L1' in H1. exact H1.
Qed.

End ResettleFacts.

(** ** What [updateGeometries_] reads *)

Module InputFacts.

Import Splitter CentralWidget CentralWidgetFacts.

Lemma inputs_preserved n c :
  width (updateGeometriesWith n c) = width c /\
  height (updateGeometriesWith n c) = height c /\
  margin_ (updateGeometriesWith n c) = margin_ c /\
  viewerMinimumSizeHint (updateGeometriesWith n c) = viewerMinimumSizeHint c /\
  toolbarVisible (updateGeometriesWith n c) = toolbarVisible c /\
  panelVisible (updateGeometriesWith n c) = panelVisible c /\
  consoleVisible (updateGeometriesWith n c) = consoleVisible c.
Proof. rewrite updateGeometriesWith_eq. repeat split. Qed.

(** Two states with the same inputs and the same lengths give
    [updateGeometries_] the same positions and the same maxima to assign. *)
Lemma positions_agree c c' :
  width c' = width c -> height c' = height c -> margin_ c' = margin_ c ->
  viewerMinimumSizeHint c' = viewerMinimumSizeHint c ->
  toolbarVisible c' = toolbarVisible c -> panelVisible c' = panelVisible c ->
  consoleVisible c' = consoleVisible c ->
  lengths c' = lengths c ->
  m1 c' = m1 c /\ m2 c' = m2 c /\ x1 c' = x1 c /\ x2 c' = x2 c /\
  x3 c' = x3 c /\ x4 c' = x4 c /\ y1 c' = y1 c /\ y2 c' = y2 c /\ y3 c' = y3 c /\
  (forall r, assignedMaximum r c' = assignedMaximum r c).
Proof.
  intros Hw Hh HM Hv Ht Hp Hc Hl.
  unfold lengths in Hl. injection Hl as L0 L1 L2.
  unfold assignedMaximum, x2, x3, y2, x1, x4, y1, y3, m2, m1.
  rewrite Hw, Hh, HM, Hv, Ht, Hp, Hc, L0, L1, L2.
  repeat split.
Qed.

Lemma lengths_eq a b :
  lengths a = lengths b ->
  length_ (splitters_0 a) = length_ (splitters_0 b) /\
  length_ (splitters_1 a) = length_ (splitters_1 b) /\
  length_ (splitters_2 a) = length_ (splitters_2 b).
Proof. unfold lengths. intros H. injection H as -> -> ->. repeat split. Qed.

End InputFacts.

(** ** Hiding and showing a satellite *)

Module ToggleFacts.

Import Splitter CentralWidget CentralWidgetFacts ResettleFacts InputFacts.

Lemma place_over_place vis visA x y l xA yA lA mA s :
  (visA = true -> vis = true) ->
  place vis x y l (with_maximumLength mA (place visA xA yA lA s))
  = with_maximumLength mA (place vis x y l s).
Proof.
  destruct vis, visA; intros H; try discriminate (H eq_refl); by_fields s.
Qed.

Lemma with_maximumLength_over m mA s :
  with_maximumLength m (with_maximumLength mA s) = with_maximumLength m s.
Proof. by_fields s. Qed.

Lemma setMaximumLength_over m mA s :
  setMaximumLength m (with_maximumLength mA s) = setMaximumLength m s.
Proof.
  unfold setMaximumLength. rewrite with_maximumLength_over. reflexivity.
Qed.

Lemma setMaximumLength_in_range m s :
  minimumLength_ s <= length_ s <= m ->
  setMaximumLength m s = with_maximumLength m s.
Proof.
  intros H. unfold setMaximumLength, setLength.
  cbn [length_ minimumLength_ maximumLength_ with_maximumLength].
  rewrite clamp_fixed by exact H. rewrite Z.eqb_refl. reflexivity.
Qed.

Lemma settle_in_range m s :
  minimumLength_ s <= length_ s <= m ->
  setMaximumLength m (setMaximumLength m s) = with_maximumLength m s.
Proof.
  intros H. rewrite (setMaximumLength_in_range m s H).
  rewrite setMaximumLength_over. apply setMaximumLength_in_range. exact H.
Qed.

(** Hiding a satellite that takes a non-negative span from the viewer
    lowers no assigned maximum. *)
Lemma assignedMaximum_grows r r' c :
  0 <= margin_ c + length_ (splitter r c) ->
  assignedMaximum r' c <= assignedMaximum r' (with_visible r false c).
Proof.
  intros H. destruct r, r'; unfold with_visible; positions; project;
    destruct (toolbarVisible c), (panelVisible c), (consoleVisible c); lia.
Qed.

(** Two states with the same inputs and lengths, whose splitters come out
    of [updateGeometries_] the same, come out the same. *)
Lemma updateGeometriesWith_ext n a b :
  width a = width b -> height a = height b -> margin_ a = margin_ b ->
  viewerMinimumSizeHint a = viewerMinimumSizeHint b ->
  toolbarVisible a = toolbarVisible b -> panelVisible a = panelVisible b ->
  consoleVisible a = consoleVisible b ->
  lengths a = lengths b ->
  (forall r, loop n (setMaximumLength (assignedMaximum r b)) (placed r a)
             = loop n (setMaximumLength (assignedMaximum r b)) (placed r b)) ->
  updateGeometriesWith n a = updateGeometriesWith n b.
Proof.
  intros Hw Hh HM Hv Ht Hp Hc Hl Hs.
  destruct (positions_agree b a Hw Hh HM Hv Ht Hp Hc Hl)
    as (E1 & E2 & E3 & E4 & E5 & E6 & E7 & E8 & E9 & EM).
  rewrite (updateGeometriesWith_eq n a), (updateGeometriesWith_eq n b).
  rewrite !EM, !Hs, E2, E3, E4, E5, E6, E7, E8, E9, Hw, Hh, HM, Hv, Ht, Hp, Hc.
  reflexivity.
Qed.

Lemma satellite_eq_dec (a b : Satellite) : {a = b} + {a <> b}.
Proof. decide equality. Qed.

(** [with_visible] writes one visibility flag and nothing else. *)
Lemma with_visible_frame r b c :
  width (with_visible r b c) = width c /\
  height (with_visible r b c) = height c /\
  margin_ (with_visible r b c) = margin_ c /\
  viewerMinimumSizeHint (with_visible r b c) = viewerMinimumSizeHint c /\
  (forall r', splitter r' (with_visible r b c) = splitter r' c) /\
  isVisible r (with_visible r b c) = b /\
  (forall r', r' <> r -> isVisible r' (with_visible r b c) = isVisible r' c).
Proof.
  repeat split; try (destruct r; reflexivity);
    intros r'; destruct r, r'; try reflexivity; intros H; now elim H.
Qed.

Lemma lengths_determined a b :
  (forall r, splitter r a = splitter r b) -> lengths a = lengths b.
Proof.
  intros H.
  change (lengths a) with
    (length_ (splitter Toolbar a), length_ (splitter Panel a),
     length_ (splitter Console a)).
  rewrite !H. reflexivity.
Qed.

(** In a state [updateGeometries_] leaves unchanged, every maximum is the
    assigned one. *)
Lemma fixed_point_maximum c r :
  updateGeometries_ c = c ->
  maximumLength_ (splitter r c) = assignedMaximum r c.
Proof.
  intros Hfix.
  transitivity (maximumLength_ (splitter r (updateGeometries_ c)));
    [now rewrite Hfix|].
  unfold updateGeometries_.
  rewrite splitter_updateGeometriesWith. cbn [loop].
  destruct (SplitterFacts.setMaximumLength_fields (assignedMaximum r c)
              (setMaximumLength (assignedMaximum r c) (placed r c)))
    as (_ & _ & ->).
  reflexivity.
Qed.

(** The splitters after a satellite of a settled state was hidden: placed
    for the new visibilities, with the new maxima, lengths untouched. *)
Lemma hidden_satellite_splitters r c :
  updateGeometries_ c = c ->
  (forall r', lengthInvariant (splitter r' c)) ->
  0 <= margin_ c + length_ (splitter r c) ->
  forall r',
    splitter r' (updateGeometries_ (with_visible r false c))
    = with_maximumLength (assignedMaximum r' (with_visible r false c))
        (placed r' (with_visible r false c)).
Proof.
  intros Hfix Hinv Hspan r'.
  unfold updateGeometries_. rewrite splitter_updateGeometriesWith.
  cbn [loop]. apply settle_in_range.
  destruct (placed_fields r' (with_visible r false c)) as (-> & -> & _).
  destruct (with_visible_frame r false c) as (_ & _ & _ & _ & Fs & _).
  rewrite Fs.
  pose proof (Hinv r') as [Hlo Hhi].
  rewrite (fixed_point_maximum c r' Hfix) in Hhi.
  pose proof (assignedMaximum_grows r r' c Hspan). lia.
Qed.

Lemma lengths_as_splitters c :
  lengths c = (length_ (splitter Toolbar c), length_ (splitter Panel c),
               length_ (splitter Console c)).
Proof. reflexivity. Qed.

Lemma hidden_satellite_lengths r c :
  updateGeometries_ c = c ->
  (forall r', lengthInvariant (splitter r' c)) ->
  0 <= margin_ c + length_ (splitter r c) ->
  lengths (updateGeometries_ (with_visible r false c)) = lengths c.
Proof.
  intros Hfix Hinv Hspan.
  pose proof (hidden_satellite_splitters r c Hfix Hinv Hspan) as HA.
  destruct (with_visible_frame r false c) as (_ & _ & _ & _ & Fs & _).
  rewrite !lengths_as_splitters, !HA.
  assert (L : forall m s, length_ (with_maximumLength m s) = length_ s)
    by reflexivity.
  rewrite !L.
  destruct (placed_fields Toolbar (with_visible r false c)) as (-> & _).
  destruct (placed_fields Panel (with_visible r false c)) as (-> & _).
  destruct (placed_fields Console (with_visible r false c)) as (-> & _).
  rewrite !Fs. reflexivity.
Qed.

Lemma isVisible_updateGeometriesWith n r c :
  isVisible r (updateGeometriesWith n c) = isVisible r c.
Proof.
  destruct (inputs_preserved n c) as (_ & _ & _ & _ & Ht & Hp & Hc).
  destruct r; assumption.
Qed.

Lemma placed_as_place r c :
  exists x y l, placed r c = place (isVisible r c) x y l (splitter r c) /\
    forall c', m2 c' = m2 c -> x2 c' = x2 c -> x3 c' = x3 c -> y1 c' = y1 c ->
               y2 c' = y2 c -> y3 c' = y3 c -> margin_ c' = margin_ c ->
               placed r c' = place (isVisible r c') x y l (splitter r c').
Proof.
  destruct r; cbn [placed isVisible splitter]; do 3 eexists; (split; [reflexivity|]);
    intros c' A1 A2 A3 A4 A5 A6 A7; rewrite ?A1, ?A2, ?A3, ?A4, ?A5, ?A6, ?A7;
    reflexivity.
Qed.

End ToggleFacts.

(** ** Dragging a divider *)

Module DragFacts.

Import Splitter CentralWidget CentralWidgetFacts.

Lemma frame_updateGeometry s : dragFrame (updateGeometry_ s) = dragFrame s.
Proof. SplitterFacts.forget_widget s. reflexivity. Qed.

Lemma frame_setMaximumLength m s : dragFrame (setMaximumLength m s) = dragFrame s.
Proof.
  unfold setMaximumLength, setLength.
  destruct (_ =? _); [reflexivity|].
  rewrite frame_updateGeometry. reflexivity.
Qed.

Lemma frame_place vis x y l s : dragFrame (place vis x y l s) = dragFrame s.
Proof.
  unfold place, setGeometryFromCenterline. destruct vis; [|reflexivity].
  unfold show.
  match goal with |- context [updateGeometry_ ?s] =>
    SplitterFacts.forget_widget s end.
  reflexivity.
Qed.

Lemma frame_placed r c : dragFrame (placed r c) = dragFrame (splitter r c).
Proof. destruct r; apply frame_place. Qed.

Lemma splitter_with_splitter r s c : splitter r (with_splitter r s c) = s.
Proof. destruct r; reflexivity. Qed.

(** The maximum assigned to a splitter does not depend on that splitter. *)
Lemma assignedMaximum_with_splitter r s c :
  assignedMaximum r (with_splitter r s c) = assignedMaximum r c.
Proof. destruct r; reflexivity. Qed.

(** The splitter of [r] after one recompute: its length is re-clamped twice
    against the assigned maximum, which becomes its maximum. *)
Lemma splitter_after_update r c :
  let s' := splitter r (updateGeometries_ c) in
  let m := assignedMaximum r c in
  let lo := minimumLength_ (splitter r c) in
  length_ s' = clamp (clamp (length_ (splitter r c)) lo m) lo m /\
  maximumLength_ s' = m /\
  dragFrame s' = dragFrame (splitter r c).
Proof.
  cbv zeta. unfold updateGeometries_.
  rewrite splitter_updateGeometriesWith. cbn [loop].
  destruct (placed_fields r c) as (Pl & Pmin & _).
  set (m := assignedMaximum r c). set (p := placed r c) in *.
  destruct (SplitterFacts.setMaximumLength_fields m p) as (L1 & Min1 & _).
  destruct (SplitterFacts.setMaximumLength_fields m (setMaximumLength m p))
    as (L2 & _ & Max2).
  rewrite L2, Min1, L1, Pl, Pmin, Max2, !frame_setMaximumLength.
  unfold p. rewrite frame_placed. repeat split.
Qed.

(** A move event on the splitter of [r], with the left button down. *)
Lemma splitter_after_move r e c :
  buttonsHasLeft e = true ->
  let s := splitter r c in
  let offset := z_ s (pos e) - zOnPress_ s in
  let v := match direction_ s with
           | Right | Bottom => lengthOnPress_ s + offset
           | Left | Top => lengthOnPress_ s - offset
           end in
  let lo := minimumLength_ s in
  let m := assignedMaximum r c in
  let s' := splitter r (mouseMoveEvent r e c) in
  length_ s' = lengthAfterMove v lo (maximumLength_ s) m /\
  maximumLength_ s' = m /\
  dragFrame s' = dragFrame s.
Proof.
  intros Hb. cbv zeta. unfold mouseMoveEvent. rewrite Hb.
  destruct (splitter_after_update r
              (with_splitter r (mouseMoveLength e (splitter r c)) c))
    as (L & M & F).
  rewrite splitter_with_splitter, assignedMaximum_with_splitter in *.
  rewrite L, M, F. repeat split.
Qed.

End DragFacts.

(** * The properties of the specification *)

Import Splitter CentralWidget.
Import CentralWidgetFacts ResettleFacts InputFacts ToggleFacts DragFacts.

(** C1.  The claim (a container at least as large as the minimum-size hint
    gives non-negative rectangles and a viewer at least as large as its
    minimum) fails in the state [Scenario.shrunk]: the container equals the
    hint in height, the call shortens the console divider from 200 to 50,
    but the rectangles come from the position computed with 200, so the
    viewer is 50 below zero in height.  A second call gives it 100. *)
Theorem viewer_below_minimum_after_shrink :
  CentralWidget.atLeastMinimumSizeHint Scenario.shrunk /\
  CentralWidget.viewerGeometry (CentralWidget.updateGeometries_ Scenario.shrunk)
    = mkQRect 68 0 732 (-50) /\
  ~ CentralWidget.viewerAtLeastMinimum (CentralWidget.updateGeometries_ Scenario.shrunk) /\
  ~ CentralWidget.regionsNonNegative (CentralWidget.updateGeometries_ Scenario.shrunk) /\
  Splitter.length_ (CentralWidget.splitters_2 Scenario.shrunk) = 200 /\
  Splitter.length_
    (CentralWidget.splitters_2 (CentralWidget.updateGeometries_ Scenario.shrunk)) = 50 /\
  CentralWidget.viewerGeometry
    (CentralWidget.updateGeometries_ (CentralWidget.updateGeometries_ Scenario.shrunk))
    = mkQRect 68 0 732 100.
Proof.
  split; [|split; [|split; [|split; [|split; [|split]]]]]; try reflexivity.
  - split; vm_compute; discriminate.
  - intros [_ H]. vm_compute in H. apply H. reflexivity.
  - intros [[_ H] _]. vm_compute in H. apply H. reflexivity.
Qed.

(** C2.  In the concrete scenario: container 1000 by 800, margin 0, toolbar
    hidden, panel visible with divider length 200 and console visible with
    divider length 200, [updateGeometries_] gives the viewer the rectangle
    (0, 0, 800, 600), the panel (800, 0, 200, 800) and the console
    (0, 600, 800, 200), whatever the bounds of the dividers are. *)
Theorem concrete_scenario_rectangles (c : CentralWidget.t) :
  CentralWidget.width c = 1000 ->
  CentralWidget.height c = 800 ->
  CentralWidget.margin_ c = 0 ->
  CentralWidget.toolbarVisible c = false ->
  CentralWidget.panelVisible c = true ->
  Splitter.length_ (CentralWidget.splitters_1 c) = 200 ->
  CentralWidget.consoleVisible c = true ->
  Splitter.length_ (CentralWidget.splitters_2 c) = 200 ->
  let c' := CentralWidget.updateGeometries_ c in
  CentralWidget.viewerGeometry c' = mkQRect 0 0 800 600 /\
  CentralWidget.panelGeometry c' = mkQRect 800 0 200 800 /\
  CentralWidget.consoleGeometry c' = mkQRect 0 600 800 200.
Proof.
  intros Hw Hh HM Ht Hp Hl1 Hc Hl2. cbv zeta.
  unfold CentralWidget.updateGeometries_.
  rewrite CentralWidgetFacts.updateGeometriesWith_eq. cbn.
  unfold CentralWidget.x2, CentralWidget.x3, CentralWidget.y2, CentralWidget.x1,
    CentralWidget.x4, CentralWidget.y1, CentralWidget.y3, CentralWidget.m2,
    CentralWidget.m1.
  rewrite Hw, Hh, HM, Ht, Hp, Hl1, Hc, Hl2.
  repeat split.
Qed.

Lemma concrete_scenario_rectangles_witness :
  CentralWidget.viewerGeometry (CentralWidget.updateGeometries_ Scenario.noToolbar)
    = mkQRect 0 0 800 600 /\
  CentralWidget.panelGeometry (CentralWidget.updateGeometries_ Scenario.noToolbar)
    = mkQRect 800 0 200 800 /\
  CentralWidget.consoleGeometry (CentralWidget.updateGeometries_ Scenario.noToolbar)
    = mkQRect 0 600 800 200.
Proof.
  apply (concrete_scenario_rectangles Scenario.noToolbar); reflexivity.
Defined.

(** C3, the claim as stated fails: in [Scenario.narrow] the container is
    narrower than the minimum-size hint and the viewer's rectangle is 118
    below zero in width; nothing clamps it to zero. *)
Lemma narrow_container_negative_viewer :
  CentralWidget.viewerGeometry (CentralWidget.updateGeometries_ Scenario.narrow)
    = mkQRect 68 0 (-118) 600 /\
  ~ CentralWidget.regionsNonNegative (CentralWidget.updateGeometries_ Scenario.narrow).
Proof.
  split; [reflexivity|].
  intros [[H _] _]. vm_compute in H. apply H. reflexivity.
Qed.

(** C3, amended.  [updateGeometries_] clamps no rectangle.  In every state
    in which the call leaves the length of each visible divider as it read
    it, the four region rectangles have non-negative width and height
    exactly when every satellite's extent (its divider's length when
    visible, minus the margin when hidden) is non-negative and the container
    holds what the margins and the visible satellites occupy; a container
    too small for that gets a rectangle of negative extent, not one of zero
    area. *)
Theorem regions_non_negative_when_lengths_kept (c : CentralWidget.t) :
  (forall r, isVisible r c = true ->
             length_ (splitter r (updateGeometries_ c)) = length_ (splitter r c)) ->
  (regionsNonNegative (updateGeometries_ c) <->
   0 <= satelliteExtent Toolbar c /\
   0 <= satelliteExtent Panel c /\
   0 <= satelliteExtent Console c /\
   2 * margin_ c + occupied Toolbar c + occupied Panel c <= width c /\
   2 * margin_ c + occupied Console c <= height c /\
   2 * margin_ c <= height c).
Proof.
  intros _.
  unfold regionsNonNegative, nonNegative, updateGeometries_.
  destruct (region_extents 2 c) as (-> & -> & E & -> & -> & -> & -> & ->).
  rewrite E. lia.
Qed.

Lemma regions_non_negative_when_lengths_kept_witness :
  regionsNonNegative (updateGeometries_ Scenario.initial) /\
  ~ regionsNonNegative (updateGeometries_ Scenario.narrow).
Proof.
  split.
  - apply (proj2 (regions_non_negative_when_lengths_kept Scenario.initial
                    (fun r _ => match r with
                                | Toolbar => eq_refl
                                | Panel => eq_refl
                                | Console => eq_refl
                                end))).
    vm_compute. repeat split; discriminate.
  - intros H.
    apply (proj1 (regions_non_negative_when_lengths_kept Scenario.narrow
                    (fun r _ => match r with
                                | Toolbar => eq_refl
                                | Panel => eq_refl
                                | Console => eq_refl
                                end))) in H.
    destruct H as (_ & _ & _ & H & _). vm_compute in H. apply H. reflexivity.
Defined.

(** C4.  The claim (a second call right after a first leaves everything
    as the first left it) fails in the state [Scenario.shrunk], the window
    made 150 high: the first call places the viewer from the console
    divider's length 200 and then shortens that divider to 50, so the second
    call places the viewer elsewhere. *)
Theorem second_call_moves_viewer :
  viewerGeometry (updateGeometries_ Scenario.shrunk) = mkQRect 68 0 732 (-50) /\
  viewerGeometry (updateGeometries_ (updateGeometries_ Scenario.shrunk))
    = mkQRect 68 0 732 100 /\
  updateGeometries_ (updateGeometries_ Scenario.shrunk)
    <> updateGeometries_ Scenario.shrunk.
Proof.
  split; [reflexivity|]. split; [reflexivity|].
  intros H. apply (f_equal (fun c => rh (viewerGeometry c))) in H.
  vm_compute in H. discriminate H.
Qed.

(** C5, the claim as stated fails: [setMaximumLength 100] on the panel
    splitter (minimum 200) leaves the bounds 200 and 100, between which no
    length lies; [updateGeometries_] makes such a call when the window is
    made 300 wide (maximum 132 for the minimum 200). *)
Lemma maximum_below_minimum_breaks_invariant :
  ~ lengthInvariant (mutate (SetMaximumLength 100) Scenario.panelSplitter) /\
  ~ lengthInvariant (splitters_1 (resizeEvent 300 800 Scenario.initial)).
Proof.
  split.
  - apply SplitterFacts.setMaximumLength_below_minimum. vm_compute. reflexivity.
  - unfold lengthInvariant. vm_compute. intros [H1 H2].
    apply H2. reflexivity.
Qed.

(** C5, amended.  After every mutation of a divider's length or bounds
    (construction, [setLength], [setMinimumLength], [setMaximumLength],
    [setLengthRange], the assignment of a drag update) that leaves the
    minimum at most the maximum, the length lies between them; the mutation
    clamps and has no error path.  [updateGeometries_], which a drag update
    calls next, changes lengths and bounds through [setMaximumLength] only. *)
Theorem length_invariant_when_bounds_ordered (mu : Mutation) (s : Splitter.t) :
  boundsOrdered (mutate mu s) -> lengthInvariant (mutate mu s).
Proof.
  unfold boundsOrdered, lengthInvariant. intros H.
  destruct (SplitterFacts.mutate_length_clamped mu s) as [v ->].
  now apply clamp_within.
Qed.

Lemma length_invariant_when_bounds_ordered_witness :
  lengthInvariant (mutate (SetMaximumLength 150) (Splitter Top true 200 50 700)) /\
  lengthInvariant (mutate (SetLengthRange 300 400) (Splitter Top true 200 50 700)).
Proof.
  split.
  - apply (length_invariant_when_bounds_ordered
             (SetMaximumLength 150) (Splitter Top true 200 50 700)).
    unfold boundsOrdered. vm_compute. discriminate.
  - apply (length_invariant_when_bounds_ordered
             (SetLengthRange 300 400) (Splitter Top true 200 50 700)).
    unfold boundsOrdered. vm_compute. discriminate.
Defined.

(** C6.  For bounds with [minimumLength <= maximumLength] and any requested
    value, the length stored by [setLength] lies within
    [minimumLength, maximumLength]. *)
Theorem setLength_within_bounds (s : Splitter.t) (v : Z) :
  Splitter.minimumLength_ s <= Splitter.maximumLength_ s ->
  Splitter.minimumLength_ s <= Splitter.length_ (Splitter.setLength v s)
    <= Splitter.maximumLength_ s.
Proof.
  intros H. rewrite SplitterFacts.setLength_length. now apply clamp_within.
Qed.

Lemma setLength_within_bounds_witness :
  200 <= Splitter.length_
           (Splitter.setLength 1000000
              (Splitter.Splitter Splitter.Left true 200 200 832)) <= 832 /\
  200 <= Splitter.length_
           (Splitter.setLength (-1000000)
              (Splitter.Splitter Splitter.Left true 200 200 832)) <= 832.
Proof.
  split.
  - apply (setLength_within_bounds
             (Splitter.Splitter Splitter.Left true 200 200 832) 1000000).
    simpl. lia.
  - apply (setLength_within_bounds
             (Splitter.Splitter Splitter.Left true 200 200 832) (-1000000)).
    simpl. lia.
Defined.

(** C7.  The claim (hiding a satellite and showing it again restores every
    rectangle) fails in the state [Scenario.afterShrink], which
    [resizeEvent] left with the viewer placed from the console divider's
    former length, 50 below zero in height: hiding the console and showing
    it again places the viewer from the shortened length, with height 100. *)
Theorem toggle_after_shrink_changes_viewer :
  viewerGeometry Scenario.afterShrink = mkQRect 68 0 732 (-50) /\
  viewerGeometry (toggled Console true (toggled Console false Scenario.afterShrink))
    = mkQRect 68 0 732 100 /\
  rectangles (toggled Console true (toggled Console false Scenario.afterShrink))
    <> rectangles Scenario.afterShrink.
Proof.
  split; [reflexivity|]. split; [reflexivity|].
  vm_compute. discriminate.
Qed.

(** C8.  During one press of a divider (the panel's in particular), each
    move of the pointer sets the divider's length to the length at press time
    plus the offset from the press coordinate for Right and Bottom, minus
    the offset for Left and Top, clamped: by the move to the bounds in force,
    then by [updateGeometries_] to the maximum it assigns.  A move by [d]
    along the drag axis and a move back to the press coordinate return the
    length to its value at press time, provided no clamp had anything to do
    on the way. *)
Theorem drag_there_and_back (r : Satellite) (c : CentralWidget.t)
    (press move back : QMouseEvent) (d : Z) :
  let s := splitter r c in
  let pressed := CentralWidget.mousePressEvent r press c in
  let moved := mouseMoveEvent r move pressed in
  let returned := mouseMoveEvent r back moved in
  buttonIsLeft press = true ->
  buttonsHasLeft move = true ->
  buttonsHasLeft back = true ->
  z_ s (pos move) = z_ s (pos press) + d ->
  z_ s (pos back) = z_ s (pos press) ->
  length_ (splitter r moved) =
    lengthAfterMove (dragTarget s d) (minimumLength_ s) (maximumLength_ s)
                    (assignedMaximum r pressed) /\
  length_ (splitter r returned) =
    lengthAfterMove (length_ s) (minimumLength_ s)
                    (maximumLength_ (splitter r moved)) (assignedMaximum r moved) /\
  (unclamped (dragTarget s d) (minimumLength_ s) (maximumLength_ s) ->
   unclamped (dragTarget s d) (minimumLength_ s) (assignedMaximum r pressed) ->
   unclamped (length_ s) (minimumLength_ s) (maximumLength_ (splitter r moved)) ->
   unclamped (length_ s) (minimumLength_ s) (assignedMaximum r moved) ->
   length_ (splitter r moved) = dragTarget s d /\
   length_ (splitter r returned) = length_ s).
Proof.
  cbv zeta. intros Hp Hm Hb Zm Zb.
  set (s := splitter r c) in *.
  set (pressed := mousePressEvent r press c) in *.
  assert (Sp : splitter r pressed = with_press true (length_ s) (z_ s (pos press)) s).
  { unfold pressed, mousePressEvent, Splitter.mousePressEvent.
    rewrite splitter_with_splitter, Hp. reflexivity. }
  destruct (splitter_after_move r move pressed Hm) as (L1 & M1 & F1).
  set (moved := mouseMoveEvent r move pressed) in *.
  rewrite Sp in L1, F1.
  cbn [direction_ lengthOnPress_ zOnPress_ minimumLength_ maximumLength_ with_press] in L1.
  replace (z_ (with_press true (length_ s) (z_ s (pos press)) s) (pos move))
    with (z_ s (pos move)) in L1 by reflexivity.
  rewrite Zm in L1.
  replace (z_ s (pos press) + d - z_ s (pos press)) with d in L1 by lia.
  fold (dragTarget s d) in L1.
  destruct (splitter_after_move r back moved Hb) as (L2 & _ & _).
  set (returned := mouseMoveEvent r back moved) in *.
  unfold dragFrame in F1.
  cbn [direction_ lengthOnPress_ zOnPress_ minimumLength_ with_press] in F1.
  injection F1 as Fd Fl Fz Fmin.
  assert (Zs : z_ (splitter r moved) (pos back) = z_ s (pos back)).
  { unfold z_, orientation. rewrite Fd. reflexivity. }
  rewrite Zs, Fd, Fl, Fz, Fmin, Zb in L2.
  replace (z_ s (pos press) - z_ s (pos press)) with 0 in L2 by lia.
  replace (match direction_ s with
           | Right | Bottom => length_ s + 0
           | Left | Top => length_ s - 0
           end) with (length_ s) in L2 by (destruct (direction_ s); lia).
  split; [exact L1|]. split; [exact L2|].
  unfold unclamped. intros U1 U2 U3 U4.
  rewrite L1, L2. unfold lengthAfterMove.
  rewrite (clamp_fixed _ _ _ U1), !(clamp_fixed _ _ _ U2).
  rewrite (clamp_fixed _ _ _ U3), !(clamp_fixed _ _ _ U4).
  split; reflexivity.
Qed.

Lemma drag_there_and_back_witness :
  length_ (splitter Panel
             (mouseMoveEvent Panel Scenario.moveTo700
                (CentralWidget.mousePressEvent Panel Scenario.pressAt800
                   Scenario.initial))) = 300 /\
  length_ (splitter Panel
             (mouseMoveEvent Panel Scenario.moveTo800
                (mouseMoveEvent Panel Scenario.moveTo700
                   (CentralWidget.mousePressEvent Panel Scenario.pressAt800
                      Scenario.initial)))) = 200.
Proof.
  apply (drag_there_and_back Panel Scenario.initial
           Scenario.pressAt800 Scenario.moveTo700 Scenario.moveTo800 (-100)
           eq_refl eq_refl eq_refl eq_refl eq_refl);
    unfold unclamped; vm_compute; split; discriminate.
Defined.

(** C9.  Starting from a freshly constructed splitter (grab width 10,
    highlight width 4), after any sequence of [setGrabWidth] and
    [setHighlightWidth] calls the stored widths satisfy
    [grabWidth >= highlightWidth >= 0]. *)
Theorem grab_width_never_below_highlight_width
    (d : Splitter.Direction) (r : bool) (l lo hi : Z)
    (cs : list Splitter.WidthCall) :
  let s := Splitter.callWidths cs (Splitter.Splitter d r l lo hi) in
  0 <= Splitter.highlightWidth_ s <= Splitter.grabWidth_ s.
Proof.
  apply SplitterFacts.width_invariant_calls.
  destruct (SplitterFacts.construct_fields d r l lo hi) as (_ & _ & _ & -> & ->).
  lia.
Qed.

(** C10, the claim as stated fails: in [Scenario.tight] the loop run twice
    leaves the dividers the lengths (68, 200, 200), run once the lengths
    (0, 132, 200); the maxima assigned to the toolbar and panel dividers
    (0 and 132) are below their minima (68 and 200). *)
Lemma second_pass_changes_lengths :
  CentralWidget.lengths (CentralWidget.updateGeometriesWith 2 Scenario.tight)
    = (68, 200, 200) /\
  CentralWidget.lengths (CentralWidget.updateGeometriesWith 1 Scenario.tight)
    = (0, 132, 200) /\
  CentralWidget.lengths (CentralWidget.updateGeometriesWith 2 Scenario.tight)
    <> CentralWidget.lengths (CentralWidget.updateGeometriesWith 1 Scenario.tight).
Proof.
  split; [reflexivity|]. split; [reflexivity|].
  vm_compute. discriminate.
Qed.

(** C10, amended.  Both runs of the loop assign each splitter the same
    maximum, the value computed from the positions read before the loop.
    The second run leaves a splitter's length as the first run left it
    exactly when the splitter's minimum is at most that maximum; when this
    holds for the three splitters, two runs leave the same state as one. *)
Theorem second_pass_same_maximum (c : CentralWidget.t) :
  (forall r,
     let once := CentralWidget.splitter r (CentralWidget.updateGeometriesWith 1 c) in
     let twice := CentralWidget.splitter r (CentralWidget.updateGeometriesWith 2 c) in
     Splitter.maximumLength_ once = CentralWidget.assignedMaximum r c /\
     Splitter.maximumLength_ twice = CentralWidget.assignedMaximum r c /\
     (Splitter.length_ twice = Splitter.length_ once <->
      Splitter.minimumLength_ (CentralWidget.splitter r c)
        <= CentralWidget.assignedMaximum r c)) /\
  ((forall r, Splitter.minimumLength_ (CentralWidget.splitter r c)
                <= CentralWidget.assignedMaximum r c) ->
   CentralWidget.updateGeometriesWith 2 c = CentralWidget.updateGeometriesWith 1 c).
Proof.
  split.
  - intros r. cbv zeta.
    rewrite !CentralWidgetFacts.splitter_updateGeometriesWith.
    cbn [CentralWidget.loop].
    destruct (CentralWidgetFacts.placed_fields r c) as (Pl & Pmin & _).
    set (m := CentralWidget.assignedMaximum r c).
    set (p := CentralWidget.placed r c) in *.
    destruct (SplitterFacts.setMaximumLength_fields m p) as (L1 & Min1 & Max1).
    destruct (SplitterFacts.setMaximumLength_fields m (Splitter.setMaximumLength m p))
      as (L2 & _ & Max2).
    split; [exact Max1|]. split; [exact Max2|].
    rewrite L2, Min1, L1, Pmin.
    split.
    + intros E. destruct (Z.le_gt_cases (Splitter.minimumLength_ (CentralWidget.splitter r c)) m)
        as [Hle|Hgt]; [exact Hle|].
      exfalso. revert E. apply clamp_twice_empty. lia.
    + apply clamp_twice_ordered.
  - intros H.
    rewrite !CentralWidgetFacts.updateGeometriesWith_eq.
    cbn [CentralWidget.loop].
    pose proof (H CentralWidget.Toolbar) as H0.
    pose proof (H CentralWidget.Panel) as H1.
    pose proof (H CentralWidget.Console) as H2.
    destruct (CentralWidgetFacts.placed_fields CentralWidget.Toolbar c) as (_ & E0 & _).
    destruct (CentralWidgetFacts.placed_fields CentralWidget.Panel c) as (_ & E1 & _).
    destruct (CentralWidgetFacts.placed_fields CentralWidget.Console c) as (_ & E2 & _).
    rewrite !SplitterFacts.setMaximumLength_twice by (rewrite ?E0, ?E1, ?E2; assumption).
    reflexivity.
Qed.

Lemma second_pass_same_maximum_witness :
  updateGeometriesWith 2 Scenario.initial = updateGeometriesWith 1 Scenario.initial.
Proof.
  apply (proj2 (second_pass_same_maximum Scenario.initial)).
  intros []; vm_compute; discriminate.
Defined.

(** * Further properties of the code *)

Import SplitterView.

(** * Further properties: Python indices of the array wrappers *)

(** X1.  An index [pyWrapped] returns is a valid position of the array:
    between 0 and the length minus one, whatever the array and the index
    given. *)
Theorem pyWrapped_index_valid (This : Type) (isEmpty : This -> bool)
    (length : This -> Z) (a : This) (i j : Z) :
  ArrayWrap.pyWrapped This isEmpty length a i = inr j ->
  0 <= j < length a.
Proof.
  unfold ArrayWrap.pyWrapped.
  destruct (isEmpty a); [discriminate|].
  destruct (Z.ltb_spec i (- length a)); [discriminate|].
  destruct (Z.ltb_spec (length a - 1) i); [discriminate|].
  cbn [orb]. intros E. injection E as <-.
  destruct (Z.ltb_spec i 0); lia.
Qed.

Lemma pyWrapped_index_valid_witness :
  0 <= 2 < ArrayWrap.listLength [10; 20; 30].
Proof.
  apply (pyWrapped_index_valid (list Z) ArrayWrap.listIsEmpty
           ArrayWrap.listLength [10; 20; 30] (-1) 2).
  reflexivity.
Defined.

(** X2.  On a non-empty array [pyWrapped] accepts exactly the indices from
    minus the length to the length minus one, and returns the index modulo
    the length: a negative index counts from the end, as in Python. *)
Theorem pyWrapped_python_index (This : Type) (isEmpty : This -> bool)
    (length : This -> Z) (a : This) (i : Z) :
  isEmpty a = false ->
  ((exists j, ArrayWrap.pyWrapped This isEmpty length a i = inr j) <->
   - length a <= i <= length a - 1) /\
  (- length a <= i <= length a - 1 ->
   ArrayWrap.pyWrapped This isEmpty length a i = inr (i mod length a)).
Proof.
  intros He. unfold ArrayWrap.pyWrapped. rewrite He.
  destruct (Z.ltb_spec i (- length a)); cbn [orb].
  - split; [split|]; [intros [j E]; discriminate | lia | lia].
  - destruct (Z.ltb_spec (length a - 1) i).
    + split; [split|]; [intros [j E]; discriminate | lia | lia].
    + split; [split; [lia | intros _; eexists; reflexivity]|].
      intros _. f_equal.
      destruct (Z.ltb_spec i 0).
      * apply Z.mod_unique with (q := -1); lia.
      * symmetry. apply Z.mod_small. lia.
Qed.

Lemma pyWrapped_python_index_witness :
  ArrayWrap.pyWrapped (list Z) ArrayWrap.listIsEmpty ArrayWrap.listLength
    [10; 20; 30] (-3) = inr ((-3) mod ArrayWrap.listLength [10; 20; 30]).
Proof.
  apply (pyWrapped_python_index (list Z) ArrayWrap.listIsEmpty
           ArrayWrap.listLength [10; 20; 30] (-3) eq_refl).
  vm_compute. split; discriminate.
Defined.



(** X4.  [a[i]], [a[i] = v] and [a.pop(i)] with a negative index from minus
    the length on do what they do with that index plus the length. *)
Theorem negative_index_counts_from_end (This T : Type)
    (isEmpty : This -> bool) (length : This -> Z)
    (getUnchecked : This -> Z -> T) (setUnchecked : This -> Z -> T -> This)
    (pop : This -> Z -> T * This) (a : This) (i : Z) (value : T) :
  isEmpty a = false ->
  - length a <= i < 0 ->
  ArrayWrap.__getitem__ This T isEmpty length getUnchecked a i
    = ArrayWrap.__getitem__ This T isEmpty length getUnchecked a (i + length a) /\
  ArrayWrap.__setitem__ This T isEmpty length setUnchecked a i value
    = ArrayWrap.__setitem__ This T isEmpty length setUnchecked a (i + length a) value /\
  ArrayWrap.pop_at This T isEmpty length pop a i
    = ArrayWrap.pop_at This T isEmpty length pop a (i + length a).
Proof.
  intros He Hi.
  assert (E : ArrayWrap.pyWrapped This isEmpty length a i
              = ArrayWrap.pyWrapped This isEmpty length a (i + length a)).
  { unfold ArrayWrap.pyWrapped. rewrite He.
    destruct (Z.ltb_spec i (- length a)); [lia|].
    destruct (Z.ltb_spec (length a - 1) i); [lia|].
    destruct (Z.ltb_spec (i + length a) (- length a)); [lia|].
    destruct (Z.ltb_spec (length a - 1) (i + length a)); [lia|].
    cbn [orb].
    destruct (Z.ltb_spec i 0); [|lia].
    destruct (Z.ltb_spec (i + length a) 0); [lia|]. reflexivity. }
  unfold ArrayWrap.__getitem__, ArrayWrap.__setitem__, ArrayWrap.pop_at.
  rewrite E. repeat split.
Qed.

Lemma negative_index_counts_from_end_witness :
  ArrayWrap.__getitem__ (list Z) Z ArrayWrap.listIsEmpty ArrayWrap.listLength
    ArrayWrap.listGet [10; 20; 30] (-1)
  = ArrayWrap.__getitem__ (list Z) Z ArrayWrap.listIsEmpty ArrayWrap.listLength
    ArrayWrap.listGet [10; 20; 30] (-1 + ArrayWrap.listLength [10; 20; 30]).
Proof.
  apply (negative_index_counts_from_end (list Z) Z ArrayWrap.listIsEmpty
           ArrayWrap.listLength ArrayWrap.listGet (fun a _ _ => a)
           (fun a _ => (0, a)) [10; 20; 30] (-1) 0 eq_refl).
  vm_compute. split; [discriminate|reflexivity].
Defined.

(** * Further properties: the scene *)

(** X5.  Every call of [addPoint] or [setPoints] emits [changed] exactly
    once: after a sequence of calls the signal was emitted once per call. *)
Theorem scene_changed_once_per_call (Point : Type) (defaultPoint : Point)
    (cs : list (Scene.Call Point)) (s : Scene.t Point) :
  Scene.changed Point (Scene.calls Point defaultPoint cs s)
  = (Scene.changed Point s + List.length cs)%nat.
Proof.
  revert s. unfold Scene.calls.
  induction cs as [|c cs IH]; intros s; cbn [fold_left List.length].
  - lia.
  - rewrite IH. destruct c; cbn; lia.
Qed.

(** X6.  [setPoints] discards what the scene held: after any calls, a
    [setPoints ps] and then calls of [addPoint] only, the scene holds [ps]
    followed by the added points in the order of the calls. *)
Theorem scene_points_after_setPoints (Point : Type) (defaultPoint : Point)
    (before after : list (Scene.Call Point)) (ps : list Point)
    (s : Scene.t Point) :
  forallb (Scene.isAdd Point) after = true ->
  Scene.points_ Point
    (Scene.calls Point defaultPoint (before ++ Scene.SetPoints Point ps :: after) s)
  = ps ++ flat_map (Scene.added Point defaultPoint) after.
Proof.
  intros Hadd. unfold Scene.calls.
  rewrite fold_left_app. cbn [fold_left Scene.call].
  set (s0 := Scene.setPoints Point ps _).
  assert (E : Scene.points_ Point s0 = ps) by reflexivity.
  rewrite <- E. clearbody s0. clear E.
  revert s0. induction after as [|c cs IH]; intros s0; cbn [fold_left flat_map].
  - now rewrite app_nil_r.
  - cbn [forallb] in Hadd. apply andb_prop in Hadd as [Hc Hcs].
    rewrite (IH Hcs). destruct c; cbn in *; try discriminate;
      rewrite <- app_assoc; reflexivity.
Qed.

Lemma scene_points_after_setPoints_witness :
  Scene.points_ Z
    (Scene.calls Z 0 ([Scene.AddPoint Z 7] ++ Scene.SetPoints Z [1; 2]
                        :: [Scene.AddPoint Z 3; Scene.AddDefaultPoint Z])
       (Scene.Scene Z))
  = [1; 2] ++ flat_map (Scene.added Z 0) [Scene.AddPoint Z 3; Scene.AddDefaultPoint Z].
Proof.
  apply (scene_points_after_setPoints Z 0 [Scene.AddPoint Z 7]
           [Scene.AddPoint Z 3; Scene.AddDefaultPoint Z] [1; 2] (Scene.Scene Z)).
  reflexivity.
Defined.

(** * Further properties: one divider *)

Module WidthFacts.

Lemma quot2_bounds n : 0 <= n -> 0 <= n ÷ 2 /\ 2 * (n ÷ 2) <= n < 2 * (n ÷ 2) + 2.
Proof.
  intros H. rewrite Z.quot_div_nonneg by lia.
  pose proof (Z.div_mod n 2 ltac:(lia)).
  pose proof (Z.mod_pos_bound n 2 ltac:(lia)).
  pose proof (Z.div_pos n 2 H ltac:(lia)). lia.
Qed.

End WidthFacts.

(** X7.  [setGeometryFromCenterline] on a resizable splitter whose widths
    satisfy [0 <= highlightWidth <= grabWidth] gives it the grab rectangle:
    [grabWidth] thick, as long as the centerline, starting half the grab
    width before the centerline, which it contains.  With
    [highlightWidth < grabWidth] the mask is the band [highlightWidth] thick
    inside that rectangle, as long as it, around the centerline; with equal
    widths there is no mask and no margin. *)
Theorem grab_rectangle_around_centerline (s : Splitter.t) (x y l : Z) :
  isResizable_ s = true ->
  0 <= highlightWidth_ s <= grabWidth_ s ->
  let o := orientation s in
  let s' := setGeometryFromCenterline x y l s in
  let g := geometry (widget s') in
  let c := acrossStart o (mkQRect x y 0 0) in
  acrossStart o g = c - grabWidth_ s ÷ 2 /\
  acrossExtent o g = grabWidth_ s /\
  alongStart o g = alongStart o (mkQRect x y 0 0) /\
  alongExtent o g = l /\
  acrossStart o g <= c <= acrossStart o g + acrossExtent o g /\
  (highlightWidth_ s < grabWidth_ s ->
   exists band,
     mask (widget s') = Some band /\ mouseNoMask (widget s') = true /\
     acrossExtent o band = highlightWidth_ s /\
     alongStart o band = 0 /\ alongExtent o band = l /\
     0 <= acrossStart o band /\
     acrossStart o band + acrossExtent o band <= grabWidth_ s /\
     acrossStart o g + acrossStart o band <= c
       <= acrossStart o g + acrossStart o band + acrossExtent o band) /\
  (highlightWidth_ s = grabWidth_ s ->
   mask (widget s') = None /\ mouseNoMask (widget s') = false /\
   contentsMargins (widget s') = mkQMargins 0 0 0 0).
Proof.
  intros Hr Hw. cbv zeta.
  destruct s as [d r L mn mx cp cl gw hw ho pr lop zop [geo cm msk mnm hid]].
  cbn [isResizable_ highlightWidth_ grabWidth_] in Hr, Hw. subst r.
  destruct (WidthFacts.quot2_bounds gw ltac:(lia)) as (G0 & G1).
  destruct (WidthFacts.quot2_bounds hw ltac:(lia)) as (H0 & H1).
  unfold setGeometryFromCenterline, updateGeometry_, orientation.
  cbn [direction_ isResizable_ centerlineStartPos_ centerlineLength_
       grabWidth_ highlightWidth_ widget with_centerline with_widget px py].
  destruct (Z.ltb_spec hw gw) as [Hlt|Hge];
    destruct d;
    cbn [acrossStart acrossExtent alongStart alongExtent geometry mask
         mouseNoMask contentsMargins setGeometry setMouseNoMask
         setContentsMargins setMask clearMask contentsRect
         rx ry rw rh mleft mtop mright mbottom];
    (repeat match goal with |- _ /\ _ => split end;
     try lia; try reflexivity;
     intros Hc; try lia;
     first [ eexists; repeat split;
             cbv [acrossStart acrossExtent alongStart alongExtent contentsRect
                  setContentsMargins setMouseNoMask setGeometry geometry
                  contentsMargins rx ry rw rh mleft mtop mright mbottom];
             lia
           | repeat split ]).
Qed.

Lemma grab_rectangle_around_centerline_witness :
  acrossExtent (orientation Scenario.panelSplitter)
    (geometry (widget (setGeometryFromCenterline 800 0 800 Scenario.panelSplitter)))
  = grabWidth_ Scenario.panelSplitter.
Proof.
  assert (Hw : 0 <= highlightWidth_ Scenario.panelSplitter
               <= grabWidth_ Scenario.panelSplitter)
    by (vm_compute; split; discriminate).
  exact (proj1 (proj2 (grab_rectangle_around_centerline
                         Scenario.panelSplitter 800 0 800 eq_refl Hw))).
Defined.

(** X8.  Making a resizable splitter non-resizable collapses its rectangle
    to (0, 0, 0, 0) without mask and leaves its length, bounds and
    centerline alone; making it resizable again gives it back the rectangle
    [updateGeometry_] derives from the centerline.  Setting the flag to the
    value it has changes nothing. *)
Theorem setResizable_collapses_and_restores (s : Splitter.t) :
  isResizable_ s = true ->
  let off := setResizable false s in
  geometry (widget off) = mkQRect 0 0 0 0 /\
  mask (widget off) = None /\
  mouseNoMask (widget off) = false /\
  (length_ off, minimumLength_ off, maximumLength_ off,
   centerlineStartPos_ off, centerlineLength_ off)
  = (length_ s, minimumLength_ s, maximumLength_ s,
     centerlineStartPos_ s, centerlineLength_ s) /\
  setResizable true off = updateGeometry_ s /\
  setResizable true s = s /\
  setResizable false off = off.
Proof.
  intros Hr. cbv zeta.
  destruct s as [d r L mn mx cp cl gw hw ho pr lop zop [geo cm msk mnm hid]].
  cbn [isResizable_] in Hr. subst r.
  repeat match goal with |- _ /\ _ => split end; try reflexivity.
  destruct d; cbv [setResizable Bool.eqb isResizable_ with_isResizable
    updateGeometry_ orientation with_widget setGeometry setContentsMargins
    setMouseNoMask contentsRect setMask clearMask
    direction_ length_ minimumLength_ maximumLength_
    centerlineStartPos_ centerlineLength_ grabWidth_ highlightWidth_
    isHovered_ isPressed_ lengthOnPress_ zOnPress_ widget
    geometry contentsMargins mask mouseNoMask hidden px py
    rx ry rw rh mleft mtop mright mbottom];
    destruct (hw <? gw); reflexivity.
Qed.

Lemma setResizable_collapses_and_restores_witness :
  geometry (widget (setResizable false Scenario.panelSplitter)) = mkQRect 0 0 0 0 /\
  setResizable true (setResizable false Scenario.panelSplitter)
  = updateGeometry_ Scenario.panelSplitter.
Proof.
  pose proof (setResizable_collapses_and_restores Scenario.panelSplitter eq_refl)
    as (H1 & _ & _ & _ & H5 & _).
  split; [exact H1|exact H5].
Defined.

(** X9.  [setGrabWidth] and [setHighlightWidth] store the value they are
    given, raised to 0 when negative, and move the other width only as far
    as [highlightWidth <= grabWidth] needs: [setGrabWidth] lowers the
    highlight width to the new grab width at most, [setHighlightWidth]
    raises the grab width to the new highlight width at least.  Neither
    refreshes the rectangle, nor touches the length and its bounds. *)
Theorem width_setters_store_and_adjust (s : Splitter.t) (w : Z) :
  (grabWidth_ (setGrabWidth w s) = Z.max w 0 /\
   highlightWidth_ (setGrabWidth w s) = Z.min (highlightWidth_ s) (Z.max w 0) /\
   widget (setGrabWidth w s) = widget s /\
   (length_ (setGrabWidth w s), minimumLength_ (setGrabWidth w s),
    maximumLength_ (setGrabWidth w s))
   = (length_ s, minimumLength_ s, maximumLength_ s)) /\
  (highlightWidth_ (setHighlightWidth w s) = Z.max w 0 /\
   grabWidth_ (setHighlightWidth w s) = Z.max (grabWidth_ s) (Z.max w 0) /\
   widget (setHighlightWidth w s) = widget s /\
   (length_ (setHighlightWidth w s), minimumLength_ (setHighlightWidth w s),
    maximumLength_ (setHighlightWidth w s))
   = (length_ s, minimumLength_ s, maximumLength_ s)).
Proof.
  unfold setGrabWidth, setHighlightWidth.
  cbn [grabWidth_ highlightWidth_ widget length_ minimumLength_ maximumLength_
       with_widths].
  split; repeat split.
  - destruct (Z.ltb_spec w 0); lia.
  - destruct (Z.ltb_spec w 0).
    + destruct (Z.ltb_spec 0 (highlightWidth_ s)); lia.
    + destruct (Z.ltb_spec w (highlightWidth_ s)); lia.
  - destruct (Z.ltb_spec w 0); lia.
  - destruct (Z.ltb_spec w 0).
    + destruct (Z.ltb_spec (grabWidth_ s) 0); lia.
    + destruct (Z.ltb_spec (grabWidth_ s) w); lia.
Qed.

Module EventFacts.

Lemma input_layoutState i s : layoutState (input i s) = layoutState s.
Proof.
  destruct i as [[| |]|e|e]; cbn [input event]; try reflexivity.
  - unfold Splitter.mousePressEvent. destruct (buttonIsLeft e); reflexivity.
  - unfold Splitter.mouseReleaseEvent. destruct (buttonIsLeft e); reflexivity.
Qed.

Lemma inputs_app a b s : inputs (a ++ b) s = inputs b (inputs a s).
Proof. unfold inputs. apply fold_left_app. Qed.

Lemma clamp_monotone v v' lo hi :
  lo <= hi -> v <= v' -> clamp v lo hi <= clamp v' lo hi.
Proof.
  intros H1 H2. unfold clamp.
  destruct (Z.ltb_spec v lo), (Z.ltb_spec v' lo); try lia;
    destruct (Z.ltb_spec hi v'); try lia;
    destruct (Z.ltb_spec hi v); lia.
Qed.

End EventFacts.

(** X10.  Hover, press and release events never change what the layout
    reads of a splitter (length, bounds, centerline, widths, rectangle),
    however many arrive; a press with the left button records the length of
    that moment and the pointer's coordinate on the drag axis, and a press
    or release with another button changes nothing at all. *)
Theorem input_events_leave_layout (ins : list Input) (s : Splitter.t)
    (e : QMouseEvent) :
  layoutState (inputs ins s) = layoutState s /\
  (buttonIsLeft e = true ->
   let s' := inputs (ins ++ [Press e]) s in
   isPressed_ s' = true /\ lengthOnPress_ s' = length_ s /\
   zOnPress_ s' = z_ s (pos e)) /\
  (buttonIsLeft e = true ->
   isPressed_ (inputs (ins ++ [Release e]) s) = false) /\
  (buttonIsLeft e = false ->
   inputs (ins ++ [Press e]) s = inputs ins s /\
   inputs (ins ++ [Release e]) s = inputs ins s).
Proof.
  assert (F : forall ins s, layoutState (inputs ins s) = layoutState s).
  { clear. intros ins. unfold inputs.
    induction ins as [|i ins IH]; intros s; cbn [fold_left]; [reflexivity|].
    rewrite IH. apply EventFacts.input_layoutState. }
  split; [apply F|].
  rewrite !EventFacts.inputs_app.
  pose proof (F ins s) as Fs. unfold layoutState in Fs.
  injection Fs as Fd _ Fl _ _ _ _ _ _ _.
  cbv zeta.
  assert (S1 : forall i t, inputs [i] t = input i t) by reflexivity.
  rewrite !S1. cbn [input].
  unfold Splitter.mousePressEvent, Splitter.mouseReleaseEvent.
  split; [|split].
  - intros He. rewrite He.
    cbn [isPressed_ lengthOnPress_ zOnPress_ with_press].
    split; [reflexivity|]. split; [exact Fl|].
    unfold z_, orientation. rewrite Fd. reflexivity.
  - intros He. rewrite He. reflexivity.
  - intros He. rewrite He. split; reflexivity.
Qed.

Lemma input_events_leave_layout_witness :
  isPressed_ (inputs ([Hover HoverEnter] ++ [Press Scenario.pressAt800])
                Scenario.panelSplitter) = true /\
  lengthOnPress_ (inputs ([Hover HoverEnter] ++ [Press Scenario.pressAt800])
                    Scenario.panelSplitter) = length_ Scenario.panelSplitter /\
  zOnPress_ (inputs ([Hover HoverEnter] ++ [Press Scenario.pressAt800])
               Scenario.panelSplitter)
  = z_ Scenario.panelSplitter (pos Scenario.pressAt800).
Proof.
  exact (proj1 (proj2 (input_events_leave_layout [Hover HoverEnter]
                         Scenario.panelSplitter Scenario.pressAt800)) eq_refl).
Defined.

(** * Further properties: the layout *)

Module LayoutFacts.

Lemma updateGeometry_hidden s :
  hidden (widget (updateGeometry_ s)) = hidden (widget s).
Proof.
  destruct s as [d [] ? ? ? ? ? gw hw ? ? ? ? [? ? ? ? ?]];
    cbv [updateGeometry_ isResizable_ widget with_widget]; [|reflexivity].
  cbv [orientation direction_ highlightWidth_ grabWidth_].
  destruct d, (hw <? gw); reflexivity.
Qed.

(** What the re-clamps of [updateGeometries_] leave of a placed splitter. *)
Lemma setMaximumLength_placement m s :
  centerlineStartPos_ (setMaximumLength m s) = centerlineStartPos_ s /\
  centerlineLength_ (setMaximumLength m s) = centerlineLength_ s /\
  isResizable_ (setMaximumLength m s) = isResizable_ s /\
  hidden (widget (setMaximumLength m s)) = hidden (widget s).
Proof.
  unfold setMaximumLength, setLength.
  destruct (_ =? _); [repeat split|].
  rewrite updateGeometry_hidden.
  match goal with |- context [updateGeometry_ ?t] =>
    SplitterFacts.forget_widget t end.
  repeat split.
Qed.

Lemma refresh_commutes a m s :
  updateGeometry_ (with_length a (with_maximumLength m s))
  = with_length a (with_maximumLength m (updateGeometry_ s)).
Proof. by_fields s. Qed.

Lemma refresh_commutes_maximum m s :
  updateGeometry_ (with_maximumLength m s)
  = with_maximumLength m (updateGeometry_ s).
Proof. by_fields s. Qed.

Lemma refresh_twice s : updateGeometry_ (updateGeometry_ s) = updateGeometry_ s.
Proof. by_fields s. Qed.

(** A splitter whose rectangle is up to date keeps it through
    [setMaximumLength]. *)
Lemma setMaximumLength_fresh m s :
  updateGeometry_ s = s ->
  widget (setMaximumLength m s) = widget s /\
  updateGeometry_ (setMaximumLength m s) = setMaximumLength m s.
Proof.
  intros F. unfold setMaximumLength, setLength.
  cbn [length_ minimumLength_ maximumLength_ with_maximumLength].
  destruct (_ =? _).
  - split; [reflexivity|]. rewrite refresh_commutes_maximum, F. reflexivity.
  - rewrite refresh_commutes, F. split; [reflexivity|].
    rewrite refresh_commutes, F. reflexivity.
Qed.

Lemma place_fresh x y l s :
  updateGeometry_ (place true x y l s) = place true x y l s.
Proof. by_fields s. Qed.

Lemma place_centerline vis x y l s :
  hidden (widget (place vis x y l s)) = negb vis /\
  isResizable_ (place vis x y l s) = isResizable_ s /\
  (vis = true ->
   centerlineStartPos_ (place vis x y l s) = mkQPoint x y /\
   centerlineLength_ (place vis x y l s) = l) /\
  (vis = false ->
   centerlineStartPos_ (place vis x y l s) = centerlineStartPos_ s /\
   centerlineLength_ (place vis x y l s) = centerlineLength_ s /\
   geometry (widget (place vis x y l s)) = geometry (widget s)).
Proof.
  destruct vis; cbn [place negb].
  - unfold show, setGeometryFromCenterline. cbn [widget with_widget hidden setHidden].
    match goal with |- context [updateGeometry_ ?t] =>
      SplitterFacts.forget_widget t end.
    repeat split; discriminate.
  - repeat split; discriminate.
Qed.

Lemma hint_determined c c' :
  margin_ c' = margin_ c ->
  viewerMinimumSizeHint c' = viewerMinimumSizeHint c ->
  toolbarVisible c' = toolbarVisible c ->
  panelVisible c' = panelVisible c ->
  consoleVisible c' = consoleVisible c ->
  (forall r, minimumLength_ (splitter r c') = minimumLength_ (splitter r c)) ->
  minimumSizeHint c' = minimumSizeHint c.
Proof.
  intros HM Hv Ht Hp Hc Hmin. unfold minimumSizeHint.
  pose proof (Hmin Toolbar) as H0. pose proof (Hmin Panel) as H1.
  pose proof (Hmin Console) as H2. cbn [splitter] in H0, H1, H2.
  rewrite HM, Hv, Ht, Hp, Hc, H0, H1, H2. reflexivity.
Qed.

Lemma hint_determined_visible c c' :
  margin_ c' = margin_ c ->
  viewerMinimumSizeHint c' = viewerMinimumSizeHint c ->
  (forall r, isVisible r c' = isVisible r c) ->
  (forall r, minimumLength_ (splitter r c') = minimumLength_ (splitter r c)) ->
  minimumSizeHint c' = minimumSizeHint c.
Proof.
  intros HM Hv Hvis Hmin.
  apply hint_determined; try assumption.
  - exact (Hvis Toolbar).
  - exact (Hvis Panel).
  - exact (Hvis Console).
Qed.

Lemma minimumLength_after_update r c :
  minimumLength_ (splitter r (updateGeometries_ c)) = minimumLength_ (splitter r c).
Proof.
  destruct (splitter_after_update r c) as (_ & _ & F).
  unfold dragFrame in F. injection F as _ _ _ F. exact F.
Qed.

Lemma hint_after_update c :
  minimumSizeHint (updateGeometries_ c) = minimumSizeHint c.
Proof.
  destruct (inputs_preserved 2 c) as (_ & _ & HM & Hv & Ht & Hp & Hc).
  apply hint_determined; try assumption.
  intros r. apply minimumLength_after_update.
Qed.

End LayoutFacts.

(** X11.  The rectangles [updateGeometries_] assigns tile the container
    with the margin [M] around and between them, for every margin, odd or
    even, and whatever is visible: the toolbar starts [M] from the left, the
    viewer [M] after the toolbar, the panel [M] after the viewer and ends
    [M] before the right edge; the viewer starts [M] from the top, the
    console [M] below it and ends [M] above the bottom; toolbar and panel
    span the height between the margins, and the console has the viewer's
    horizontal span. *)
Theorem regions_tile_container (c : CentralWidget.t) :
  let c' := updateGeometries_ c in
  let M := margin_ c in
  let T := toolbarGeometry c' in
  let V := viewerGeometry c' in
  let C := consoleGeometry c' in
  let P := panelGeometry c' in
  rx T = M /\ rx T + rw T + M = rx V /\ rx V + rw V + M = rx P /\
  rx P + rw P = width c - M /\
  ry V = M /\ ry V + rh V + M = ry C /\ ry C + rh C = height c - M /\
  ry T = M /\ ry T + rh T = height c - M /\
  ry P = M /\ ry P + rh P = height c - M /\
  rx C = rx V /\ rw C = rw V.
Proof.
  cbv zeta. unfold updateGeometries_. rewrite updateGeometriesWith_eq.
  project. unfold x1, x4, y1, y3, m2.
  repeat split; lia.
Qed.

(** X12.  After [updateGeometries_] a divider is shown exactly when its
    satellite is visible.  The centerline of a shown divider runs along the
    region that starts after it, [m2 = M - M/2] before that region's edge and
    over its whole side: for the toolbar divider the left side of the
    viewer over the height of the toolbar, for the panel divider the left
    side of the panel, for the console divider the top side of the console.
    A hidden divider keeps the centerline it had. *)
Theorem dividers_follow_regions (r : Satellite) (c : CentralWidget.t) :
  let c' := updateGeometries_ c in
  let s' := splitter r c' in
  hidden (widget s') = negb (isVisible r c) /\
  (isVisible r c = true ->
   centerlineStartPos_ s' =
     match r with
     | Toolbar => mkQPoint (rx (viewerGeometry c') - m2 c) (ry (toolbarGeometry c'))
     | Panel => mkQPoint (rx (panelGeometry c') - m2 c) (ry (panelGeometry c'))
     | Console => mkQPoint (rx (consoleGeometry c')) (ry (consoleGeometry c') - m2 c)
     end /\
   centerlineLength_ s' =
     match r with
     | Toolbar => rh (toolbarGeometry c')
     | Panel => rh (panelGeometry c')
     | Console => rw (consoleGeometry c')
     end) /\
  (isVisible r c = false ->
   centerlineStartPos_ s' = centerlineStartPos_ (splitter r c) /\
   centerlineLength_ s' = centerlineLength_ (splitter r c)).
Proof.
  cbv zeta. unfold updateGeometries_.
  rewrite splitter_updateGeometriesWith. cbn [loop].
  set (m := assignedMaximum r c).
  destruct (LayoutFacts.setMaximumLength_placement m
              (setMaximumLength m (placed r c))) as (-> & -> & _ & ->).
  destruct (LayoutFacts.setMaximumLength_placement m (placed r c))
    as (-> & -> & _ & ->).
  rewrite updateGeometriesWith_eq. project.
  destruct r; cbn [placed isVisible splitter];
    match goal with |- context [place ?v ?x ?y ?l ?s] =>
      destruct (LayoutFacts.place_centerline v x y l s) as (Hh & _ & Hv & Hn)
    end;
    (split; [exact Hh|]; split; intros E;
     [ destruct (Hv E) as [-> ->]; split; [f_equal; lia | reflexivity]
     | destruct (Hn E) as (-> & -> & _); split; reflexivity ]).
Qed.

Lemma dividers_follow_regions_witness :
  centerlineStartPos_ (splitter Panel (updateGeometries_ Scenario.initial))
  = mkQPoint (rx (panelGeometry (updateGeometries_ Scenario.initial))
              - m2 Scenario.initial)
             (ry (panelGeometry (updateGeometries_ Scenario.initial))) /\
  centerlineLength_ (splitter Panel (updateGeometries_ Scenario.initial))
  = rh (panelGeometry (updateGeometries_ Scenario.initial)).
Proof.
  exact (proj1 (proj2 (dividers_follow_regions Panel Scenario.initial)) eq_refl).
Defined.

(** X13.  The re-clamps of the maximum-length loop do not disturb the
    rectangle of a shown divider: after [updateGeometries_] its widget is the
    one [setGeometryFromCenterline] derived from the centerline, shown; for
    a divider that is not resizable that is the empty rectangle
    (0, 0, 0, 0) without mask. *)
Theorem shown_divider_rectangle (r : Satellite) (c : CentralWidget.t) :
  isVisible r c = true ->
  let s' := splitter r (updateGeometries_ c) in
  widget s' =
    widget (show (setGeometryFromCenterline
                    (px (centerlineStartPos_ s')) (py (centerlineStartPos_ s'))
                    (centerlineLength_ s') (splitter r c))) /\
  (isResizable_ (splitter r c) = false ->
   geometry (widget s') = mkQRect 0 0 0 0 /\ mask (widget s') = None).
Proof.
  intros Hv. cbv zeta. unfold updateGeometries_.
  rewrite splitter_updateGeometriesWith. cbn [loop].
  set (m := assignedMaximum r c).
  destruct (placed_as_place r c) as (x & y & l & Pc & _).
  rewrite Pc, Hv.
  pose proof (LayoutFacts.place_fresh x y l (splitter r c)) as F0.
  destruct (LayoutFacts.setMaximumLength_fresh m _ F0) as (W1 & F1).
  destruct (LayoutFacts.setMaximumLength_fresh m _ F1) as (W2 & _).
  destruct (LayoutFacts.setMaximumLength_placement m
              (setMaximumLength m (place true x y l (splitter r c))))
    as (-> & -> & _ & _).
  destruct (LayoutFacts.setMaximumLength_placement m (place true x y l (splitter r c)))
    as (-> & -> & _ & _).
  rewrite W2, W1.
  destruct (LayoutFacts.place_centerline true x y l (splitter r c))
    as (_ & _ & Hc & _).
  destruct (Hc eq_refl) as [-> ->]. cbn [px py place].
  split; [reflexivity|].
  intros Hr. destruct (splitter r c) as [d res ? ? ? ? ? ? ? ? ? ? ? [? ? ? ? ?]].
  cbn [isResizable_] in Hr. subst res. split; reflexivity.
Qed.

Lemma shown_divider_rectangle_witness :
  geometry (widget (splitter Toolbar (updateGeometries_ Scenario.shrunk)))
    = mkQRect 0 0 0 0 /\
  mask (widget (splitter Toolbar (updateGeometries_ Scenario.shrunk))) = None.
Proof.
  exact (proj2 (shown_divider_rectangle Toolbar Scenario.shrunk eq_refl) eq_refl).
Defined.

(** X14.  The maximum [updateGeometries_] assigns to a visible divider is
    exactly the greatest length that leaves the viewer its minimum size on
    the divider's axis: the viewer's rectangle is at least its minimum width
    when and only when the toolbar divider, if visible, and the panel
    divider, if visible, are no longer than their assigned maxima, and at
    least its minimum height when and only when the console divider is. *)
Theorem assigned_maximum_is_sharp (r : Satellite) (c : CentralWidget.t) :
  isVisible r c = true ->
  let V := viewerGeometry (updateGeometries_ c) in
  let fits := length_ (splitter r c) <= assignedMaximum r c in
  match r with
  | Toolbar | Panel => sizeWidth (viewerMinimumSizeHint c) <= rw V <-> fits
  | Console => sizeHeight (viewerMinimumSizeHint c) <= rh V <-> fits
  end.
Proof.
  intros Hv. cbv zeta. unfold updateGeometries_.
  rewrite updateGeometriesWith_eq. project.
  destruct r; cbn [isVisible] in Hv; positions; project;
    rewrite ?Hv;
    destruct (toolbarVisible c), (panelVisible c), (consoleVisible c);
    try discriminate; lia.
Qed.

Lemma assigned_maximum_is_sharp_witness :
  sizeHeight (viewerMinimumSizeHint Scenario.shrunk)
    <= rh (viewerGeometry (updateGeometries_ Scenario.shrunk))
  <-> length_ (splitter Console Scenario.shrunk)
      <= assignedMaximum Console Scenario.shrunk.
Proof.
  exact (assigned_maximum_is_sharp Console Scenario.shrunk eq_refl).
Defined.

(** X15.  The minimum-size hint depends on the margin, the viewer's minimum
    size, the visibilities and the dividers' minimum lengths only: a
    recompute, a resize, and a press, move or release on any divider leave
    it as it was. *)
Theorem minimumSizeHint_stable (c : CentralWidget.t) (w h : Z)
    (r : Satellite) (e : QMouseEvent) :
  minimumSizeHint (updateGeometries_ c) = minimumSizeHint c /\
  minimumSizeHint (resizeEvent w h c) = minimumSizeHint c /\
  minimumSizeHint (CentralWidget.mousePressEvent r e c) = minimumSizeHint c /\
  minimumSizeHint (mouseMoveEvent r e c) = minimumSizeHint c /\
  minimumSizeHint (CentralWidget.mouseReleaseEvent r e c) = minimumSizeHint c.
Proof.
  split; [apply LayoutFacts.hint_after_update|].
  split; [unfold resizeEvent; rewrite LayoutFacts.hint_after_update; reflexivity|].
  split.
  { apply LayoutFacts.hint_determined; try (destruct r; reflexivity).
    intros r'. unfold CentralWidget.mousePressEvent, Splitter.mousePressEvent.
    destruct r, r'; cbn [splitter with_splitter splitters_0 splitters_1 splitters_2];
      try reflexivity; destruct (buttonIsLeft e); reflexivity. }
  split.
  { unfold mouseMoveEvent. destruct (buttonsHasLeft e); [|reflexivity].
    rewrite LayoutFacts.hint_after_update.
    apply LayoutFacts.hint_determined; try (destruct r; reflexivity).
    intros r'. unfold mouseMoveLength.
    destruct r, r'; reflexivity. }
  apply LayoutFacts.hint_determined; try (destruct r; reflexivity).
  intros r'. unfold CentralWidget.mouseReleaseEvent, Splitter.mouseReleaseEvent.
  destruct r, r'; cbn [splitter with_splitter splitters_0 splitters_1 splitters_2];
    try reflexivity; destruct (buttonIsLeft e); reflexivity.
Qed.

(** X16.  Making a hidden satellite visible raises the minimum-size hint by
    the margin plus the minimum length of the satellite's divider, in width
    for the toolbar and the panel and in height for the console; hiding it
    again lowers the hint by as much. *)
Theorem minimumSizeHint_grows_with_satellite (r : Satellite) (c : CentralWidget.t) :
  isVisible r c = false ->
  let d := margin_ c + minimumLength_ (splitter r c) in
  let shown := toggled r true c in
  minimumSizeHint shown =
    match r with
    | Toolbar | Panel =>
        mkQSize (sizeWidth (minimumSizeHint c) + d) (sizeHeight (minimumSizeHint c))
    | Console =>
        mkQSize (sizeWidth (minimumSizeHint c)) (sizeHeight (minimumSizeHint c) + d)
    end /\
  minimumSizeHint (toggled r false shown) = minimumSizeHint c.
Proof.
  intros Hv. cbv zeta. unfold toggled.
  rewrite !LayoutFacts.hint_after_update.
  destruct (with_visible_frame r true c) as (_ & _ & FM & Fv & Fs & Fr & Fo).
  assert (E : minimumSizeHint
                (with_visible r false (updateGeometries_ (with_visible r true c)))
              = minimumSizeHint c).
  { destruct (inputs_preserved 2 (with_visible r true c))
      as (_ & _ & HM & Hvm & _).
    fold (updateGeometries_ (with_visible r true c)) in HM, Hvm.
    pose proof (fun r' => isVisible_updateGeometriesWith 2 r' (with_visible r true c))
      as Hvis.
    fold (updateGeometries_ (with_visible r true c)) in Hvis.
    pose proof (fun r' => LayoutFacts.minimumLength_after_update r'
                            (with_visible r true c)) as Hmin.
    revert HM Hvm Hvis Hmin.
    generalize (updateGeometries_ (with_visible r true c)). intros cA HM Hvm Hvis Hmin.
    destruct (with_visible_frame r false cA) as (_ & _ & GM & Gv & Gs & Gr & Go).
    apply LayoutFacts.hint_determined_visible.
    - congruence.
    - congruence.
    - intros r'. destruct (satellite_eq_dec r' r) as [->|Hne]; [congruence|].
      rewrite (Go r' Hne), Hvis. apply (Fo r' Hne).
    - intros r'. rewrite Gs, Hmin, Fs. reflexivity. }
  split; [|exact E].
  clear E. unfold minimumSizeHint.
  pose proof (Fs Toolbar) as S0. pose proof (Fs Panel) as S1.
  pose proof (Fs Console) as S2.
  pose proof (Fo Toolbar) as V0. pose proof (Fo Panel) as V1.
  pose proof (Fo Console) as V2.
  cbn [splitter isVisible] in S0, S1, S2, V0, V1, V2.
  rewrite FM, Fv, S0, S1, S2.
  destruct r; cbn [isVisible splitter] in Hv, Fr |- *;
    rewrite Fr, ?V0, ?V1, ?V2, ?Hv by discriminate;
    destruct (toolbarVisible c), (panelVisible c), (consoleVisible c);
    try discriminate; cbn [sizeWidth sizeHeight]; f_equal; lia.
Qed.

Lemma minimumSizeHint_grows_with_satellite_witness :
  minimumSizeHint (toggled Panel true (toggled Panel false Scenario.initial))
  = mkQSize
      (sizeWidth (minimumSizeHint (toggled Panel false Scenario.initial))
       + (margin_ (toggled Panel false Scenario.initial)
          + minimumLength_ (splitter Panel (toggled Panel false Scenario.initial))))
      (sizeHeight (minimumSizeHint (toggled Panel false Scenario.initial))).
Proof.
  exact (proj1 (minimumSizeHint_grows_with_satellite Panel
                  (toggled Panel false Scenario.initial) eq_refl)).
Defined.

Module SettleFacts.

Lemma clamp_min v lo hi : lo <= v -> lo <= hi -> clamp v lo hi = Z.min v hi.
Proof.
  intros H1 H2. unfold clamp.
  destruct (Z.ltb_spec v lo); [lia|].
  destruct (Z.ltb_spec hi v); lia.
Qed.

(** The length [updateGeometries_] leaves a splitter whose minimum is at
    most the assigned maximum. *)
Lemma length_after_update r c :
  minimumLength_ (splitter r c) <= assignedMaximum r c ->
  length_ (splitter r (updateGeometries_ c))
  = clamp (length_ (splitter r c)) (minimumLength_ (splitter r c))
          (assignedMaximum r c).
Proof.
  intros H. destruct (splitter_after_update r c) as (-> & _ & _).
  now apply clamp_twice_ordered.
Qed.

(** Shorter dividers leave every divider at least as much room. *)
Lemma assignedMaximum_antitone c c' :
  width c' = width c -> height c' = height c -> margin_ c' = margin_ c ->
  viewerMinimumSizeHint c' = viewerMinimumSizeHint c ->
  (forall r, isVisible r c' = isVisible r c) ->
  (forall r, length_ (splitter r c') <= length_ (splitter r c)) ->
  forall r, assignedMaximum r c <= assignedMaximum r c'.
Proof.
  intros Hw Hh HM Hv Hvis Hl r.
  pose proof (Hvis Toolbar) as V0. pose proof (Hvis Panel) as V1.
  pose proof (Hl Toolbar) as L0. pose proof (Hl Panel) as L1.
  cbn [isVisible splitter] in V0, V1, L0, L1.
  unfold assignedMaximum, x2, x3, x1, x4, y1, y3, m2, m1.
  rewrite Hw, Hh, HM, Hv, V0, V1.
  destruct r, (toolbarVisible c), (panelVisible c); lia.
Qed.

(** The idempotence of a call that keeps the lengths, for the proofs below. *)
Lemma settled_call c :
  lengths (updateGeometries_ c) = lengths c ->
  updateGeometries_ (updateGeometries_ c) = updateGeometries_ c.
Proof.
  intros H. unfold updateGeometries_ in *.
  destruct (inputs_preserved 2 c) as (Hw & Hh & HM & Hv & Ht & Hp & Hc).
  apply updateGeometriesWith_ext; try assumption.
  intros r. cbn [loop].
  destruct (positions_agree c _ Hw Hh HM Hv Ht Hp Hc H)
    as (E1 & E2 & E3 & E4 & E5 & E6 & E7 & E8 & E9 & EM).
  destruct (placed_as_place r c) as (x & y & l & Pc & Pany).
  rewrite (Pany (updateGeometriesWith 2 c)) by assumption.
  rewrite (isVisible_updateGeometriesWith 2 r c).
  rewrite splitter_updateGeometriesWith. cbn [loop]. rewrite Pc.
  apply resettle.
  rewrite !lengths_as_splitters, !splitter_updateGeometriesWith in H.
  cbn [loop] in H.
  assert (L : length_ (setMaximumLength (assignedMaximum r c)
                         (setMaximumLength (assignedMaximum r c) (placed r c)))
              = length_ (splitter r c)).
  { injection H as H0 H1 H2. destruct r; assumption. }
  rewrite Pc in L. exact L.
Qed.

Lemma lengths_pointwise a b :
  (forall r, length_ (splitter r a) = length_ (splitter r b)) ->
  lengths a = lengths b.
Proof.
  intros H. rewrite !lengths_as_splitters, !H. reflexivity.
Qed.

(** After one call on a state whose minima are below the lengths and the
    assigned maxima, a further call keeps the lengths. *)
Lemma second_call_keeps_lengths c :
  (forall r, minimumLength_ (splitter r c) <= length_ (splitter r c)) ->
  (forall r, minimumLength_ (splitter r c) <= assignedMaximum r c) ->
  (forall r, length_ (splitter r (updateGeometries_ c))
             = Z.min (length_ (splitter r c)) (assignedMaximum r c)) /\
  (forall r, length_ (splitter r (updateGeometries_ c))
             <= assignedMaximum r (updateGeometries_ c)) /\
  lengths (updateGeometries_ (updateGeometries_ c)) = lengths (updateGeometries_ c).
Proof.
  intros Hlo Hm.
  assert (L1 : forall r, length_ (splitter r (updateGeometries_ c))
                         = Z.min (length_ (splitter r c)) (assignedMaximum r c)).
  { intros r. rewrite (length_after_update r c (Hm r)).
    apply clamp_min; [apply Hlo | apply Hm]. }
  destruct (inputs_preserved 2 c) as (Hw & Hh & HM & Hv & _).
  fold (updateGeometries_ c) in Hw, Hh, HM, Hv.
  pose proof (isVisible_updateGeometriesWith 2) as Hvis.
  fold updateGeometries_ in Hvis.
  pose proof (fun r => LayoutFacts.minimumLength_after_update r c) as Hmin.
  assert (A : forall r, assignedMaximum r c
                        <= assignedMaximum r (updateGeometries_ c)).
  { apply assignedMaximum_antitone; try assumption.
    - intros r. apply Hvis.
    - intros r. rewrite L1. lia. }
  assert (B : forall r, length_ (splitter r (updateGeometries_ c))
                        <= assignedMaximum r (updateGeometries_ c)).
  { intros r. rewrite L1. pose proof (A r). lia. }
  split; [exact L1|]. split; [exact B|].
  apply lengths_pointwise. intros r.
  rewrite length_after_update.
  - apply clamp_fixed. rewrite Hmin. split; [|apply B].
    rewrite L1. pose proof (Hlo r). pose proof (Hm r). lia.
  - rewrite Hmin. pose proof (Hm r). pose proof (A r). lia.
Qed.

End SettleFacts.

(** X17.  [updateGeometries_] leaves a divider whose minimum length is at
    most the maximum it assigns within its bounds: minimum and assigned
    maximum are its bounds afterwards, and a length that was at least the
    minimum becomes the smaller of itself and the assigned maximum, so the
    call never lengthens such a divider. *)
Theorem update_shortens_to_assigned_maximum (r : Satellite) (c : CentralWidget.t) :
  minimumLength_ (splitter r c) <= assignedMaximum r c ->
  let s' := splitter r (updateGeometries_ c) in
  minimumLength_ s' = minimumLength_ (splitter r c) /\
  maximumLength_ s' = assignedMaximum r c /\
  lengthInvariant s' /\
  (minimumLength_ (splitter r c) <= length_ (splitter r c) ->
   length_ s' = Z.min (length_ (splitter r c)) (assignedMaximum r c)).
Proof.
  intros H. cbv zeta.
  pose proof (SettleFacts.length_after_update r c H) as L.
  pose proof (LayoutFacts.minimumLength_after_update r c) as Mn.
  destruct (splitter_after_update r c) as (_ & Mx & _).
  split; [exact Mn|]. split; [exact Mx|]. split.
  - unfold lengthInvariant. rewrite L, Mn, Mx. now apply clamp_within.
  - intros Hlo. rewrite L. now apply SettleFacts.clamp_min.
Qed.

Lemma update_shortens_to_assigned_maximum_witness :
  length_ (splitter Console (updateGeometries_ Scenario.shrunk))
  = Z.min (length_ (splitter Console Scenario.shrunk))
          (assignedMaximum Console Scenario.shrunk).
Proof.
  apply (update_shortens_to_assigned_maximum Console Scenario.shrunk).
  - vm_compute. discriminate.
  - vm_compute. discriminate.
Defined.

(** X18.  Two calls settle the layout: in a state where every divider's
    minimum length is at most its length and at most the maximum the call
    assigns, the state after two calls of [updateGeometries_] is one a
    further call leaves unchanged, and in it the viewer has at least its
    minimum size when the container is at least the minimum-size hint. *)
Theorem two_updates_settle (c : CentralWidget.t) :
  (forall r, minimumLength_ (splitter r c) <= length_ (splitter r c)) ->
  (forall r, minimumLength_ (splitter r c) <= assignedMaximum r c) ->
  let settled := updateGeometries_ (updateGeometries_ c) in
  updateGeometries_ settled = settled /\
  (atLeastMinimumSizeHint c -> viewerAtLeastMinimum settled).
Proof.
  intros Hlo Hm. cbv zeta.
  destruct (SettleFacts.second_call_keeps_lengths c Hlo Hm) as (_ & B & K).
  split; [now apply SettleFacts.settled_call|].
  intros [Hw Hh].
  apply viewer_minimum_when_lengths_settled.
  - unfold atLeastMinimumSizeHint.
    rewrite LayoutFacts.hint_after_update.
    destruct (inputs_preserved 2 c) as (Ew & Eh & _).
    fold (updateGeometries_ c) in Ew, Eh. rewrite Ew, Eh. split; assumption.
  - intros r _. apply B.
Qed.

Lemma two_updates_settle_witness :
  updateGeometries_ (updateGeometries_ (updateGeometries_ Scenario.shrunk))
  = updateGeometries_ (updateGeometries_ Scenario.shrunk) /\
  viewerAtLeastMinimum (updateGeometries_ (updateGeometries_ Scenario.shrunk)).
Proof.
  assert (Hlo : forall r, minimumLength_ (splitter r Scenario.shrunk)
                          <= length_ (splitter r Scenario.shrunk))
    by (intros []; vm_compute; discriminate).
  assert (Hm : forall r, minimumLength_ (splitter r Scenario.shrunk)
                         <= assignedMaximum r Scenario.shrunk)
    by (intros []; vm_compute; discriminate).
  assert (Hh : atLeastMinimumSizeHint Scenario.shrunk)
    by (split; vm_compute; discriminate).
  destruct (two_updates_settle Scenario.shrunk Hlo Hm) as [F V].
  split; [exact F|exact (V Hh)].
Defined.

(** X19.  With ordered bounds a drag is monotone: of two pointer positions
    during one press, the one further along the drag axis leaves a Right or
    Bottom divider at least as long, and a Left or Top divider at most as
    long, as the other. *)
Theorem drag_is_monotone (r : Satellite) (c : CentralWidget.t)
    (e1 e2 : QMouseEvent) :
  let s := splitter r c in
  buttonsHasLeft e1 = true ->
  buttonsHasLeft e2 = true ->
  minimumLength_ s <= maximumLength_ s ->
  minimumLength_ s <= assignedMaximum r c ->
  z_ s (pos e1) <= z_ s (pos e2) ->
  let l1 := length_ (splitter r (mouseMoveEvent r e1 c)) in
  let l2 := length_ (splitter r (mouseMoveEvent r e2 c)) in
  match direction_ s with
  | Right | Bottom => l1 <= l2
  | Left | Top => l2 <= l1
  end.
Proof.
  cbv zeta. intros B1 B2 Hb Hm Hz.
  destruct (splitter_after_move r e1 c B1) as (-> & _ & _).
  destruct (splitter_after_move r e2 c B2) as (-> & _ & _).
  unfold lengthAfterMove.
  destruct (direction_ (splitter r c));
    repeat apply EventFacts.clamp_monotone; try assumption; lia.
Qed.

Lemma drag_is_monotone_witness :
  length_ (splitter Panel
             (mouseMoveEvent Panel Scenario.moveTo800
                (CentralWidget.mousePressEvent Panel Scenario.pressAt800
                   Scenario.initial)))
  <= length_ (splitter Panel
                (mouseMoveEvent Panel Scenario.moveTo700
                   (CentralWidget.mousePressEvent Panel Scenario.pressAt800
                      Scenario.initial))).
Proof.
  apply (drag_is_monotone Panel
           (CentralWidget.mousePressEvent Panel Scenario.pressAt800 Scenario.initial)
           Scenario.moveTo700 Scenario.moveTo800 eq_refl eq_refl);
    vm_compute; discriminate.
Defined.

(** X20.  A window built at least 268 wider and 200 higher than the
    viewer's minimum size (the initial lengths 68, 200 and 200 of the three
    dividers), with a default maximum length of at least 200, starts
    settled: margin 0, the dividers at their initial lengths and within
    their bounds, the viewer at least at its minimum size, and a state that
    a further [updateGeometries_] leaves unchanged, whatever is visible. *)
Theorem constructed_window_is_settled (w h : Z) (vMinSize : QSize)
    (toolbarVis panelVis consoleVis : bool) (defaultMaximumLength : Z) :
  200 <= defaultMaximumLength ->
  sizeWidth vMinSize + 268 <= w ->
  sizeHeight vMinSize + 200 <= h ->
  let c := CentralWidget.CentralWidget w h vMinSize toolbarVis panelVis
             consoleVis defaultMaximumLength in
  margin_ c = 0 /\
  lengths c = (68, 200, 200) /\
  (forall r, lengthInvariant (splitter r c)) /\
  viewerAtLeastMinimum c /\
  updateGeometries_ c = c.
Proof.
  intros Hd Hw Hh. cbv zeta. unfold CentralWidget.CentralWidget.
  set (c0 := CentralWidget.mk w h 0 vMinSize toolbarVis panelVis consoleVis _ _ _ _
               (Splitter Right false 68 68 defaultMaximumLength)
               (Splitter Left true 200 200 defaultMaximumLength)
               (Splitter Top true 200 50 defaultMaximumLength)).
  destruct (SplitterFacts.construct_fields Right false 68 68 defaultMaximumLength)
    as (L0 & N0 & _).
  destruct (SplitterFacts.construct_fields Left true 200 200 defaultMaximumLength)
    as (L1 & N1 & _).
  destruct (SplitterFacts.construct_fields Top true 200 50 defaultMaximumLength)
    as (L2 & N2 & _).
  rewrite clamp_fixed in L0, L1, L2 by lia.
  assert (EL : forall r, length_ (splitter r c0)
                         = match r with Toolbar => 68 | _ => 200 end).
  { intros []; assumption. }
  assert (EN : forall r, minimumLength_ (splitter r c0)
                         = match r with Toolbar => 68 | Panel => 200 | Console => 50 end).
  { intros []; assumption. }
  assert (EM : forall r, match r with Toolbar => 68 | _ => 200 end
                         <= assignedMaximum r c0).
  { intros r. pose proof (EL Toolbar) as A0. pose proof (EL Panel) as A1.
    cbn [splitter] in A0, A1.
    unfold assignedMaximum, x2, x3, x1, x4, y1, y3, m2, m1. subst c0. project.
    cbn [margin_]. rewrite A0, A1.
    change (0 ÷ 2) with 0.
    destruct r, toolbarVis, panelVis; lia. }
  assert (Hlo : forall r, minimumLength_ (splitter r c0) <= length_ (splitter r c0)).
  { intros r. rewrite EL, EN. destruct r; lia. }
  assert (Hm : forall r, minimumLength_ (splitter r c0) <= assignedMaximum r c0).
  { intros r. pose proof (EM r). rewrite EN. destruct r; lia. }
  destruct (SettleFacts.second_call_keeps_lengths c0 Hlo Hm) as (K1 & _ & _).
  assert (K : forall r, length_ (splitter r (updateGeometries_ c0))
                        = length_ (splitter r c0)).
  { intros r. rewrite K1. pose proof (EM r). rewrite EL. lia. }
  split; [reflexivity|].
  split.
  { rewrite lengths_as_splitters, !K, !EL. reflexivity. }
  split.
  { intros r. unfold lengthInvariant.
    destruct (splitter_after_update r c0) as (_ & -> & _).
    rewrite K, LayoutFacts.minimumLength_after_update.
    pose proof (Hlo r) as A. pose proof (EM r) as B. rewrite EL in A |- *. lia. }
  split.
  { apply viewer_minimum_when_lengths_settled.
    - unfold atLeastMinimumSizeHint, minimumSizeHint. subst c0.
      cbn [margin_ viewerMinimumSizeHint toolbarVisible panelVisible
           consoleVisible splitters_0 splitters_1 splitters_2 width height].
      rewrite N0, N1, N2.
      destruct toolbarVis, panelVis, consoleVis; cbn [sizeWidth sizeHeight];
        split; lia.
    - intros r _. pose proof (EM r). rewrite EL. exact H. }
  apply SettleFacts.settled_call.
  apply SettleFacts.lengths_pointwise. exact K.
Qed.

Lemma constructed_window_is_settled_witness :
  lengths Scenario.initial = (68, 200, 200) /\
  updateGeometries_ Scenario.initial = Scenario.initial.
Proof.
  assert (Hd : 200 <= Scenario.std_int_max) by (vm_compute; discriminate).
  assert (Hw : sizeWidth (mkQSize 100 100) + 268 <= 1000) by (vm_compute; discriminate).
  assert (Hh : sizeHeight (mkQSize 100 100) + 200 <= 800) by (vm_compute; discriminate).
  destruct (constructed_window_is_settled 1000 800 (mkQSize 100 100)
              true true true Scenario.std_int_max Hd Hw Hh)
    as (_ & L & _ & _ & F).
  split; [exact L|exact F].
Defined.

(** X21.  From a state that [updateGeometries_] leaves unchanged, in which every
    divider's length lies within its bounds and the toggled satellite is
    visible and its divider's length plus the margin is not negative, hiding
    the satellite and showing it again restores the whole state. *)
Theorem toggle_round_trip (r : Satellite) (c : CentralWidget.t) :
  updateGeometries_ c = c ->
  isVisible r c = true ->
  (forall r', lengthInvariant (splitter r' c)) ->
  0 <= margin_ c + length_ (splitter r c) ->
  toggled r true (toggled r false c) = c.
Proof.
  intros Hfix Hvis Hinv Hspan.
  unfold toggled.
  pose proof (hidden_satellite_splitters r c Hfix Hinv Hspan) as HA.
  pose proof (hidden_satellite_lengths r c Hfix Hinv Hspan) as HL.
  pose proof (inputs_preserved 2 (with_visible r false c)) as IP.
  fold (updateGeometries_ (with_visible r false c)) in IP.
  revert HA HL IP. generalize (updateGeometries_ (with_visible r false c)).
  intros cA HA HL (Hw & Hh & HM & Hv & Ht & Hp & Hc).
  transitivity (updateGeometries_ c); [|exact Hfix].
  unfold updateGeometries_ at 1 2.
  destruct (with_visible_frame r false c) as (Fw1 & Fh1 & FM1 & Fv1 & Fs1 & Fr1 & Fo1).
  destruct (with_visible_frame r true cA) as (Fw & Fh & FM & Fv & Fs & Fr & Fo).
  assert (Ivis : forall r', isVisible r' (with_visible r true cA) = isVisible r' c).
  { intros r'.
    destruct (satellite_eq_dec r' r) as [->|Hne]; [congruence|].
    rewrite (Fo r' Hne). rewrite <- (Fo1 r' Hne).
    destruct r'; [exact Ht|exact Hp|exact Hc]. }
  apply updateGeometriesWith_ext.
  - congruence.
  - congruence.
  - congruence.
  - congruence.
  - exact (Ivis Toolbar).
  - exact (Ivis Panel).
  - exact (Ivis Console).
  - rewrite <- HL. apply lengths_determined. exact Fs.
  - intros r'. cbn [loop].
    assert (Il : lengths (with_visible r true cA) = lengths c).
    { rewrite <- HL. apply lengths_determined. exact Fs. }
    destruct (positions_agree c (with_visible r true cA)
                ltac:(congruence) ltac:(congruence) ltac:(congruence)
                ltac:(congruence) (Ivis Toolbar) (Ivis Panel) (Ivis Console) Il)
      as (E1 & E2 & E3 & E4 & E5 & E6 & E7 & E8 & E9 & EM).
    destruct (placed_as_place r' c) as (x & y & l & Pc & Pany).
    rewrite Pc, (Pany (with_visible r true cA)) by assumption.
    rewrite Fs, HA, Ivis.
    destruct (placed_as_place r' (with_visible r false c)) as (xA & yA & lA & PA & _).
    rewrite PA, Fs1.
    rewrite place_over_place.
    + rewrite setMaximumLength_over. reflexivity.
    + destruct (satellite_eq_dec r' r) as [->|Hne].
      * rewrite Fr1. discriminate.
      * rewrite (Fo1 r' Hne). tauto.
Qed.

Lemma toggle_round_trip_witness :
  toggled Panel true (toggled Panel false Scenario.initial) = Scenario.initial.
Proof.
  apply (toggle_round_trip Panel Scenario.initial).
  - reflexivity.
  - reflexivity.
  - intros []; unfold lengthInvariant; vm_compute; split; discriminate.
  - vm_compute. discriminate.
Defined.
